(** * SelFlow Central AI Brain: a shallow embedding of [app/ai/central_brain.py]

    The class [CentralAIBrain] is embedded as a record of its attributes and
    one monadic program per method.  The collaborators the module imports
    (Ollama client, context manager, specialised agents) are not part of the
    file: they are records of methods acting on an abstract collaborator
    state [W], so that every statement below holds for every behaviour they
    may have.  Collaborators are reached through their methods only; they do
    not write the attributes of the brain.

    Python exceptions keep the side effects made before the raise, so the
    monad is [Machine -> Outcome A * Machine] rather than a state monad stacked
    on an error monad.  Every awaited collaborator call is appended to a call
    log, which is what the statements about "how many times was the executor
    called" and "what was written to the context store" talk about.

    [logger] calls have no effect on any result and are left out.  The
    interleaving of several coroutines is not modelled: each method runs from
    its call to its return. *)

From Stdlib Require Import ZArith QArith List String Ascii Bool Lia.
Import ListNotations.
Local Open Scope Z_scope.
Local Open Scope string_scope.
Local Open Scope list_scope.

Set Implicit Arguments.
Set Warnings "-register-all".

(** ** Python values *)

(** [action.recommended_action] is an enum member read through [.value]. *)
Record ActionType : Type := { value : string }.

(** The attributes of a [SystemAction] that the module reads. *)
Record SystemAction : Type := {
  action_id : string;
  recommended_action : ActionType;
  user_feedback : string
}.

(** Values that travel in the result dicts.  A dict is the list of its items
    in insertion order, with string keys.  Floats are kept as the rational
    they denote ([0.85], a number of seconds, a number of hours). *)
Inductive pyval : Type :=
| VNone
| VBool (b : bool)
| VInt (n : Z)
| VFloat (q : Q)
| VStr (s : string)
| VList (xs : list pyval)
| VDict (items : list (string * pyval))
| VAction (a : SystemAction).

Definition pydict : Type := list (string * pyval).

(** [d.get(k)] *)
Fixpoint dict_get (d : pydict) (k : string) : option pyval :=
  match d with
  | [] => None
  | (k', v) :: rest => if String.eqb k' k then Some v else dict_get rest k
  end.

(** [d.get(k, default)] *)
Definition dict_get_default (d : pydict) (k : string) (default : pyval) : pyval :=
  match dict_get d k with
  | Some v => v
  | None => default
  end.

Arguments dict_get_default d k default : simpl nomatch.

(** [d[k] = v]: an existing key keeps its place, a new one goes last. *)
Fixpoint dict_set (d : pydict) (k : string) (v : pyval) : pydict :=
  match d with
  | [] => [(k, v)]
  | (k', v') :: rest =>
      if String.eqb k' k then (k, v) :: rest else (k', v') :: dict_set rest k v
  end.

(** Truth value of an object, as [if x] and [not x] see it. *)
Definition truthy (v : pyval) : bool :=
  match v with
  | VNone => false
  | VBool b => b
  | VInt n => negb (n =? 0)%Z
  | VFloat q => negb (Qnum q =? 0)%Z
  | VStr s => negb (String.eqb s EmptyString)
  | VList xs => match xs with [] => false | _ => true end
  | VDict items => match items with [] => false | _ => true end
  | VAction _ => true
  end.

(** The message of the [AttributeError] raised by [None.attr]. *)
Definition none_has_no_attribute (attr : string) : string :=
  "'NoneType' object has no attribute '" ++ attr ++ "'".

(** ** Outcomes *)

(** A call returns a value or raises; [str(e)] is all the module ever reads
    from an exception. *)
Inductive Outcome (A : Type) : Type :=
| Returned (a : A)
| Raised (e : string).
Arguments Returned {A} a.
Arguments Raised {A} e.

(** ** Collaborators

    One record per imported class, with the methods the brain calls.  Each
    method runs on the collaborators' state [W]. *)

Module OllamaClient.
Record t (W : Type) : Type := {
  start : W -> Outcome unit * W;
  close : W -> Outcome unit * W;
  generate_response : string -> pydict -> string -> W -> Outcome string * W;
  (** the fragments produced, then the exception that ended the stream,
      if one did *)
  stream_response : string -> pydict -> string -> W -> (list string * option string) * W;
  get_health_status : W -> Outcome pydict * W
}.
End OllamaClient.

Module ContextManager.
Record t (W : Type) : Type := {
  build_context : string -> string -> W -> Outcome pyval * W;
  update_context : pydict -> W -> Outcome unit * W;
  get_context_summary : W -> Outcome pyval * W
}.
End ContextManager.

Module UserInterfaceAgent.
Record t (W : Type) : Type := {
  process_chat_message : string -> option pydict -> W -> Outcome pydict * W
}.
End UserInterfaceAgent.

Module AgentOrchestrator.
Record t (W : Type) : Type := {
  coordinate_task : string -> option pydict -> W -> Outcome pydict * W
}.
End AgentOrchestrator.

Module EmbryoTrainer.
Record t (W : Type) : Type := {
  generate_training_labels : list pyval -> W -> Outcome pydict * W;
  validate_embryo_training : pydict -> W -> Outcome pydict * W;
  assess_birth_readiness : pydict -> W -> Outcome pydict * W
}.
End EmbryoTrainer.

Module SystemController.
Record t (W : Type) : Type := {
  translate_user_command : string -> option pydict -> W -> Outcome SystemAction * W;
  execute_system_action : SystemAction -> W -> Outcome pydict * W
}.
End SystemController.

(** What the module takes from its imports and from the Python runtime: the
    constructors of the collaborators, the clock and the string renderings. *)
Record Imports (W : Type) : Type := {
  new_OllamaClient : pyval -> W -> Outcome (OllamaClient.t W) * W;
  new_ContextManager : pyval -> W -> Outcome (ContextManager.t W) * W;
  new_UserInterfaceAgent : W -> Outcome (UserInterfaceAgent.t W) * W;
  new_AgentOrchestrator : W -> Outcome (AgentOrchestrator.t W) * W;
  new_EmbryoTrainer : W -> Outcome (EmbryoTrainer.t W) * W;
  new_SystemController : W -> Outcome (SystemController.t W) * W;
  (** [datetime.now()], in microseconds *)
  now : W -> Z * W;
  (** [datetime.isoformat()] *)
  isoformat : Z -> string;
  (** [str(x)], as an f-string renders a value *)
  str : pyval -> string;
  (** the [:.1f] format of a float *)
  format_1f : Q -> string
}.

(** ** The brain *)

Record CentralAIBrain (W : Type) : Type := {
  config : pydict;
  ai_config : pyval;
  context_config : pyval;
  ollama_client : option (OllamaClient.t W);
  context_manager : option (ContextManager.t W);
  user_interface : option (UserInterfaceAgent.t W);
  agent_orchestrator : option (AgentOrchestrator.t W);
  embryo_trainer : option (EmbryoTrainer.t W);
  system_controller : option (SystemController.t W);
  pattern_validator : option unit;
  is_running : bool;
  startup_time : option Z;
  interaction_count : Z
}.

(** [CentralAIBrain.__init__] *)
Definition init (W : Type) (cfg : pydict) : CentralAIBrain W := {|
  config := cfg;
  ai_config := dict_get_default cfg "ai_brain" (VDict []);
  context_config := dict_get_default cfg "context_management" (VDict []);
  ollama_client := None;
  context_manager := None;
  user_interface := None;
  agent_orchestrator := None;
  embryo_trainer := None;
  system_controller := None;
  pattern_validator := None;
  is_running := false;
  startup_time := None;
  interaction_count := 0
|}.

(** The awaited collaborator calls, as they are logged. *)
Inductive Call : Type :=
| CallOllamaStart
| CallOllamaClose
| CallGenerateResponse (prompt : string) (context : pydict) (system_prompt : string)
| CallStreamResponse (prompt : string) (context : pydict) (system_prompt : string)
| CallBuildContext (interaction_type user_message : string)
| CallUpdateContext (record : pydict)
| CallProcessChatMessage (message : string) (context : option pydict)
| CallCoordinateTask (task_description : string) (context : option pydict)
| CallGenerateTrainingLabels (events : list pyval)
| CallValidateEmbryoTraining (embryo_data : pydict)
| CallAssessBirthReadiness (embryo_data : pydict)
| CallTranslateUserCommand (user_command : string) (user_context : option pydict)
| CallExecuteSystemAction (action : SystemAction).

(** The brain, the state of its collaborators and the log of calls so far. *)
Record Machine (W : Type) : Type := {
  self : CentralAIBrain W;
  world : W;
  calls : list Call
}.


(** ** Attribute assignment *)

Section Assign.
Variable W : Type.

Definition set_ollama_client (v : option (OllamaClient.t W)) (b : CentralAIBrain W) :=
  {| config := config b; ai_config := ai_config b; context_config := context_config b;
     ollama_client := v; context_manager := context_manager b;
     user_interface := user_interface b; agent_orchestrator := agent_orchestrator b;
     embryo_trainer := embryo_trainer b; system_controller := system_controller b;
     pattern_validator := pattern_validator b; is_running := is_running b;
     startup_time := startup_time b; interaction_count := interaction_count b |}.

Definition set_context_manager (v : option (ContextManager.t W)) (b : CentralAIBrain W) :=
  {| config := config b; ai_config := ai_config b; context_config := context_config b;
     ollama_client := ollama_client b; context_manager := v;
     user_interface := user_interface b; agent_orchestrator := agent_orchestrator b;
     embryo_trainer := embryo_trainer b; system_controller := system_controller b;
     pattern_validator := pattern_validator b; is_running := is_running b;
     startup_time := startup_time b; interaction_count := interaction_count b |}.

Definition set_user_interface (v : option (UserInterfaceAgent.t W)) (b : CentralAIBrain W) :=
  {| config := config b; ai_config := ai_config b; context_config := context_config b;
     ollama_client := ollama_client b; context_manager := context_manager b;
     user_interface := v; agent_orchestrator := agent_orchestrator b;
     embryo_trainer := embryo_trainer b; system_controller := system_controller b;
     pattern_validator := pattern_validator b; is_running := is_running b;
     startup_time := startup_time b; interaction_count := interaction_count b |}.

Definition set_agent_orchestrator (v : option (AgentOrchestrator.t W)) (b : CentralAIBrain W) :=
  {| config := config b; ai_config := ai_config b; context_config := context_config b;
     ollama_client := ollama_client b; context_manager := context_manager b;
     user_interface := user_interface b; agent_orchestrator := v;
     embryo_trainer := embryo_trainer b; system_controller := system_controller b;
     pattern_validator := pattern_validator b; is_running := is_running b;
     startup_time := startup_time b; interaction_count := interaction_count b |}.

Definition set_embryo_trainer (v : option (EmbryoTrainer.t W)) (b : CentralAIBrain W) :=
  {| config := config b; ai_config := ai_config b; context_config := context_config b;
     ollama_client := ollama_client b; context_manager := context_manager b;
     user_interface := user_interface b; agent_orchestrator := agent_orchestrator b;
     embryo_trainer := v; system_controller := system_controller b;
     pattern_validator := pattern_validator b; is_running := is_running b;
     startup_time := startup_time b; interaction_count := interaction_count b |}.

Definition set_system_controller (v : option (SystemController.t W)) (b : CentralAIBrain W) :=
  {| config := config b; ai_config := ai_config b; context_config := context_config b;
     ollama_client := ollama_client b; context_manager := context_manager b;
     user_interface := user_interface b; agent_orchestrator := agent_orchestrator b;
     embryo_trainer := embryo_trainer b; system_controller := v;
     pattern_validator := pattern_validator b; is_running := is_running b;
     startup_time := startup_time b; interaction_count := interaction_count b |}.

Definition set_is_running (v : bool) (b : CentralAIBrain W) :=
  {| config := config b; ai_config := ai_config b; context_config := context_config b;
     ollama_client := ollama_client b; context_manager := context_manager b;
     user_interface := user_interface b; agent_orchestrator := agent_orchestrator b;
     embryo_trainer := embryo_trainer b; system_controller := system_controller b;
     pattern_validator := pattern_validator b; is_running := v;
     startup_time := startup_time b; interaction_count := interaction_count b |}.

Definition set_startup_time (v : option Z) (b : CentralAIBrain W) :=
  {| config := config b; ai_config := ai_config b; context_config := context_config b;
     ollama_client := ollama_client b; context_manager := context_manager b;
     user_interface := user_interface b; agent_orchestrator := agent_orchestrator b;
     embryo_trainer := embryo_trainer b; system_controller := system_controller b;
     pattern_validator := pattern_validator b; is_running := is_running b;
     startup_time := v; interaction_count := interaction_count b |}.

Definition set_interaction_count (v : Z) (b : CentralAIBrain W) :=
  {| config := config b; ai_config := ai_config b; context_config := context_config b;
     ollama_client := ollama_client b; context_manager := context_manager b;
     user_interface := user_interface b; agent_orchestrator := agent_orchestrator b;
     embryo_trainer := embryo_trainer b; system_controller := system_controller b;
     pattern_validator := pattern_validator b; is_running := is_running b;
     startup_time := startup_time b; interaction_count := v |}.

End Assign.

(** ** The monad of method bodies *)

Section Monad.
Variable W : Type.

Definition M (A : Type) : Type := Machine W -> Outcome A * Machine W.

Definition ret {A : Type} (a : A) : M A := fun m => (Returned a, m).

(** [raise Exception(e)] *)
Definition raise {A : Type} (e : string) : M A := fun m => (Raised e, m).

Definition bind {A B : Type} (c : M A) (k : A -> M B) : M B :=
  fun m =>
    match c m with
    | (Returned a, m') => k a m'
    | (Raised e, m') => (Raised e, m')
    end.

(** [try: body except Exception as e: handler]; the handler starts from the
    state the body reached. *)
Definition try_except {A : Type} (body : M A) (handler : string -> M A) : M A :=
  fun m =>
    match body m with
    | (Returned a, m') => (Returned a, m')
    | (Raised e, m') => handler e m'
    end.

Definition get_self : M (CentralAIBrain W) := fun m => (Returned (self m), m).

(** An assignment [self.attr = v], given as the update of the record. *)
Definition assign (f : CentralAIBrain W -> CentralAIBrain W) : M unit :=
  fun m => (Returned tt, {| self := f (self m); world := world m; calls := calls m |}).

(** [await obj.method(args)]: the call is logged, then runs on the
    collaborators' state. *)
Definition await {A : Type} (c : Call) (f : W -> Outcome A * W) : M A :=
  fun m =>
    let (r, w) := f (world m) in
    (r, {| self := self m; world := w; calls := calls m ++ [c] |}).

(** A constructor or a plain (not awaited) method of a collaborator. *)
Definition invoke {A : Type} (f : W -> Outcome A * W) : M A :=
  fun m =>
    let (r, w) := f (world m) in
    (r, {| self := self m; world := w; calls := calls m |}).

(** [obj.attr] where [obj] may be [None]. *)
Definition getattr {A : Type} (obj : option A) (attr : string) : M A :=
  match obj with
  | Some x => ret x
  | None => raise (none_has_no_attribute attr)
  end.

End Monad.

Arguments ret {W A} a.
Arguments raise {W A} e.
Arguments get_self {W}.

Declare Scope brain_scope.
Delimit Scope brain_scope with brain.
Notation "x <- c ;; k" := (bind c (fun x => k))
  (at level 61, c at next level, right associativity) : brain_scope.
Notation "c ;; k" := (bind c (fun _ => k))
  (at level 61, right associativity) : brain_scope.
Local Open Scope brain_scope.

(** ** The methods of [CentralAIBrain] *)

Definition base_prompt : string :=
"You are the Central AI Brain of SelFlow, a self-creating AI operating system.

Your personality:
- Helpful and knowledgeable about the SelFlow system
- Clear and concise in explanations
- Proactive in offering assistance
- Respectful of user privacy and preferences
- Enthusiastic about AI and system capabilities

Your core capabilities:
- Answer questions about SelFlow functionality
- Execute user commands by coordinating with specialized agents
- Provide system status and insights
- Offer proactive suggestions based on user patterns
- Learn and adapt from interactions".

(** The two-character string the source writes as a doubled newline escape. *)
Definition blank_line : string :=
  String (ascii_of_nat 10) (String (ascii_of_nat 10) EmptyString).

Definition not_running_error : string := "Central AI Brain is not running".

Definition not_available_message : string :=
  "I apologize, but I'm not currently available. Please try again later.".

Section Brain.
Variable W : Type.
Variable env : Imports W.

(** [_get_system_prompt(self, context_type)] *)
Definition _get_system_prompt (b : CentralAIBrain W) (context_type : string) : string :=
  if String.eqb context_type "chat" then
    base_prompt ++ blank_line
      ++ "You are in casual conversation mode. Be friendly and helpful."
  else if String.eqb context_type "system_control" then
    base_prompt ++ blank_line
      ++ "You are in system control mode. Focus on understanding and executing system commands safely."
  else if String.eqb context_type "agent_orchestration" then
    base_prompt ++ blank_line
      ++ "You are coordinating multiple agents. Focus on task delegation and result synthesis."
  else if String.eqb context_type "embryo_training" then
    base_prompt ++ blank_line
      ++ "You are evaluating embryo training. Focus on pattern analysis and specialization recommendations."
  else base_prompt.

(** [datetime.now()] *)
Definition datetime_now : M W Z :=
  fun m =>
    let (t, w) := now env (world m) in
    (Returned t, {| self := self m; world := w; calls := calls m |}).

(** [(t1 - t0).total_seconds()] *)
Definition total_seconds (t1 t0 : Z) : Q := (t1 - t0) # 1000000.

(** [get_health_status(self)] *)
Definition get_health_status : M W pydict :=
  b <- get_self;;
  let status : pydict :=
    [ ("central_brain_running", VBool (is_running b));
      ("startup_time",
        match startup_time b with
        | Some t => VStr (isoformat env t)
        | None => VNone
        end);
      ("interaction_count", VInt (interaction_count b));
      ("ollama_healthy", VBool false);
      ("context_manager_status", VNone) ] in
  status <-
    match ollama_client b with
    | Some oc =>
        ollama_status <- invoke (OllamaClient.get_health_status oc);;
        let status :=
          dict_set status "ollama_healthy"
            (dict_get_default ollama_status "is_healthy" (VBool false)) in
        ret (dict_set status "ollama_model"
               (dict_get_default ollama_status "model_name" (VStr "unknown")))
    | None => ret status
    end;;
  match context_manager b with
  | Some cm =>
      summary <- invoke (ContextManager.get_context_summary cm);;
      ret (dict_set status "context_manager_status" summary)
  | None => ret status
  end.

(** [_initialize_specialized_agents(self)] *)
Definition _initialize_specialized_agents : M W unit :=
  try_except
    (ui <- invoke (new_UserInterfaceAgent env);;
     assign (set_user_interface (Some ui));;
     ao <- invoke (new_AgentOrchestrator env);;
     assign (set_agent_orchestrator (Some ao));;
     et <- invoke (new_EmbryoTrainer env);;
     assign (set_embryo_trainer (Some et));;
     sc <- invoke (new_SystemController env);;
     assign (set_system_controller (Some sc)))
    (fun _ => ret tt).

(** [start(self)] *)
Definition start : M W unit :=
  try_except
    (b <- get_self;;
     oc <- invoke (new_OllamaClient env (ai_config b));;
     assign (set_ollama_client (Some oc));;
     await CallOllamaStart (OllamaClient.start oc);;
     cm <- invoke (new_ContextManager env (context_config b));;
     assign (set_context_manager (Some cm));;
     health_status <- get_health_status;;
     if negb (truthy (dict_get_default health_status "ollama_healthy" (VBool false)))
     then raise "Ollama client is not healthy"
     else
       assign (set_is_running true);;
       t <- datetime_now;;
       assign (set_startup_time (Some t));;
       _initialize_specialized_agents)
    (fun e => raise e).

(** [stop(self)] *)
Definition stop : M W unit :=
  try_except
    (b <- get_self;;
     match ollama_client b with
     | Some oc => await CallOllamaClose (OllamaClient.close oc)
     | None => ret tt
     end;;
     assign (set_is_running false))
    (fun _ => ret tt).

(** [process_user_input(self, user_message, context_type)] *)
Definition process_user_input (user_message context_type : string) : M W pydict :=
  b <- get_self;;
  if negb (is_running b) then
    ret [ ("success", VBool false);
          ("error", VStr not_running_error);
          ("message", VStr not_available_message) ]
  else
    try_except
      (assign (fun b => set_interaction_count (interaction_count b + 1) b);;
       start_time <- datetime_now;;
       cm <- getattr (context_manager b) "build_context";;
       context <- await (CallBuildContext context_type user_message)
                    (ContextManager.build_context cm context_type user_message);;
       let system_prompt := _get_system_prompt b context_type in
       oc <- getattr (ollama_client b) "generate_response";;
       let generation_context := [("conversation_history", context)] in
       response <- await (CallGenerateResponse user_message generation_context system_prompt)
                     (OllamaClient.generate_response oc user_message generation_context
                        system_prompt);;
       cm <- getattr (context_manager b) "update_context";;
       b1 <- get_self;;
       t1 <- datetime_now;;
       let record :=
         [ ("user_message", VStr user_message);
           ("assistant_response", VStr response);
           ("context_type", VStr context_type);
           ("metadata",
             VDict [ ("interaction_id", VInt (interaction_count b1));
                     ("response_time", VFloat (total_seconds t1 start_time)) ]) ] in
       await (CallUpdateContext record) (ContextManager.update_context cm record);;
       b2 <- get_self;;
       t2 <- datetime_now;;
       ret [ ("success", VBool true);
             ("message", VStr response);
             ("context_type", VStr context_type);
             ("interaction_id", VInt (interaction_count b2));
             ("response_time", VFloat (total_seconds t2 start_time)) ])
      (fun e =>
         ret [ ("success", VBool false);
               ("error", VStr e);
               ("message",
                 VStr "I apologize, but I encountered an error processing your request. Please try again.") ]).

(** [chat_with_user_interface_agent(self, message, context)] *)
Definition chat_with_user_interface_agent (message : string) (context : option pydict)
  : M W pydict :=
  b <- get_self;;
  if negb (is_running b) then
    ret [ ("success", VBool false);
          ("error", VStr not_running_error);
          ("message", VStr not_available_message) ]
  else
    match user_interface b with
    | None => process_user_input message "chat"
    | Some ui =>
        try_except
          (await (CallProcessChatMessage message context)
             (UserInterfaceAgent.process_chat_message ui message context))
          (fun _ => process_user_input message "chat")
    end.

(** The [try] block of an async generator, run until the consumer has pulled
    everything: the fragments it yielded, and the exception that ended it if
    one did.  What was yielded before a raise stays yielded. *)
Definition Gen : Type := M W (list string * option string).

(** a statement that may raise, then the rest of the block *)
Definition gen_do {A : Type} (c : M W A) (k : A -> Gen) : Gen :=
  fun m =>
    match c m with
    | (Returned a, m') => k a m'
    | (Raised e, m') => (Returned ([], Some e), m')
    end.

(** [yield] of each fragment in turn, then the rest of the block *)
Definition gen_yield (fragments : list string) (k : Gen) : Gen :=
  r <- k;; ret ((fragments ++ fst r)%list, snd r).

(** the end of the block *)
Definition gen_done : Gen := ret ([], None).

(** [stream_user_response(self, user_message, context_type)]: the list of the
    fragments the generator yields. *)
Definition stream_user_response (user_message context_type : string) : M W (list string) :=
  b <- get_self;;
  if negb (is_running b) then ret [not_available_message]
  else
    r <- gen_do (getattr (context_manager b) "build_context") (fun cm =>
         gen_do (await (CallBuildContext context_type user_message)
                   (ContextManager.build_context cm context_type user_message))
           (fun context =>
         let system_prompt := _get_system_prompt b context_type in
         gen_do (getattr (ollama_client b) "stream_response") (fun oc =>
         let generation_context := [("conversation_history", context)] in
         gen_do (await (CallStreamResponse user_message generation_context system_prompt)
                   (fun w =>
                      let (s, w') :=
                        OllamaClient.stream_response oc user_message generation_context
                          system_prompt w in
                      (Returned s, w')))
           (fun s =>
         let full_response := String.concat EmptyString (fst s) in
         gen_yield (fst s)
           match snd s with
           | Some e => ret ([], Some e)
           | None =>
               gen_do (getattr (context_manager b) "update_context") (fun cm =>
               gen_do get_self (fun b1 =>
               let record :=
                 [ ("user_message", VStr user_message);
                   ("assistant_response", VStr full_response);
                   ("context_type", VStr context_type);
                   ("metadata", VDict [ ("interaction_id", VInt (interaction_count b1)) ]) ] in
               gen_do (await (CallUpdateContext record)
                         (ContextManager.update_context cm record))
                 (fun _ => gen_done)))
           end))));;
    match snd r with
    | Some _ => ret (fst r ++ ["I apologize, but I encountered an error. Please try again."])%list
    | None => ret (fst r)
    end.

(** [coordinate_system_action(self, action)] *)
Definition coordinate_system_action (action : pydict) : M W pydict :=
  b <- get_self;;
  if negb (is_running b) then
    ret [ ("success", VBool false); ("error", VStr not_running_error) ]
  else
    try_except
      (let action_type := dict_get_default action "type" (VStr "unknown") in
       t <- datetime_now;;
       ret [ ("success", VBool true);
             ("action_type", action_type);
             ("message",
               VStr ("System action '" ++ str env action_type ++ "' coordinated successfully"));
             ("timestamp", VStr (isoformat env t)) ])
      (fun e => ret [ ("success", VBool false); ("error", VStr e) ]).

(** [orchestrate_complex_task(self, task_description, context)] *)
Definition orchestrate_complex_task (task_description : string) (context : option pydict)
  : M W pydict :=
  b <- get_self;;
  if negb (is_running b) then
    ret [ ("success", VBool false); ("error", VStr not_running_error) ]
  else
    match agent_orchestrator b with
    | None => ret [ ("success", VBool false); ("error", VStr "Agent Orchestrator not available") ]
    | Some ao =>
        try_except
          (await (CallCoordinateTask task_description context)
             (AgentOrchestrator.coordinate_task ao task_description context))
          (fun e => ret [ ("success", VBool false); ("error", VStr e) ])
    end.

(** [get_system_insights(self)] *)
Definition get_system_insights : M W pydict :=
  b <- get_self;;
  uptime_hours <-
    match startup_time b with
    | Some t0 =>
        t <- datetime_now;;
        ret (VFloat (total_seconds t t0 / (3600 # 1)))
    | None => ret (VInt 0)
    end;;
  context_insights <-
    match context_manager b with
    | Some cm => invoke (ContextManager.get_context_summary cm)
    | None => ret (VDict [])
    end;;
  ret [ ("interaction_statistics",
          VDict [ ("total_interactions", VInt (interaction_count b));
                  ("uptime_hours", uptime_hours) ]);
        ("context_insights", context_insights);
        ("performance_metrics", VDict []) ].

(** [update_system_state(self, state_update)]; it returns [None]. *)
Definition update_system_state (state_update : pydict) : M W unit :=
  b <- get_self;;
  match context_manager b with
  | Some cm =>
      t <- datetime_now;;
      let record :=
        [ ("system_state", VDict state_update);
          ("metadata", VDict [ ("update_time", VStr (isoformat env t)) ]) ] in
      await (CallUpdateContext record) (ContextManager.update_context cm record)
  | None => ret tt
  end.

(** [validate_patterns(self, patterns)] *)
Definition validate_patterns (patterns : list pyval) : M W pydict :=
  ret [ ("validated_patterns", VList patterns);
        ("validation_score", VFloat (85 # 100));
        ("recommendations", VList [VStr "Pattern validation placeholder"]) ].

(** [generate_training_labels(self, events)] *)
Definition generate_training_labels (events : list pyval) : M W pydict :=
  b <- get_self;;
  if negb (is_running b) then
    ret [ ("success", VBool false); ("error", VStr not_running_error) ]
  else
    match embryo_trainer b with
    | None => ret [ ("success", VBool false); ("error", VStr "Embryo Trainer not available") ]
    | Some et =>
        try_except
          (await (CallGenerateTrainingLabels events)
             (EmbryoTrainer.generate_training_labels et events))
          (fun e => ret [ ("success", VBool false); ("error", VStr e) ])
    end.

(** [validate_embryo_training(self, embryo_data)] *)
Definition validate_embryo_training (embryo_data : pydict) : M W pydict :=
  b <- get_self;;
  if negb (is_running b) then
    ret [ ("success", VBool false); ("error", VStr not_running_error) ]
  else
    match embryo_trainer b with
    | None => ret [ ("success", VBool false); ("error", VStr "Embryo Trainer not available") ]
    | Some et =>
        try_except
          (await (CallValidateEmbryoTraining embryo_data)
             (EmbryoTrainer.validate_embryo_training et embryo_data))
          (fun e => ret [ ("success", VBool false); ("error", VStr e) ])
    end.

(** [assess_embryo_birth_readiness(self, embryo_data)] *)
Definition assess_embryo_birth_readiness (embryo_data : pydict) : M W pydict :=
  b <- get_self;;
  if negb (is_running b) then
    ret [ ("success", VBool false); ("error", VStr not_running_error) ]
  else
    match embryo_trainer b with
    | None => ret [ ("success", VBool false); ("error", VStr "Embryo Trainer not available") ]
    | Some et =>
        try_except
          (await (CallAssessBirthReadiness embryo_data)
             (EmbryoTrainer.assess_birth_readiness et embryo_data))
          (fun e => ret [ ("success", VBool false); ("error", VStr e) ])
    end.

(** [get_status_summary(self)] *)
Definition get_status_summary : M W string :=
  b <- get_self;;
  if negb (is_running b) then ret "🔴 Central AI Brain is offline"
  else
    uptime <-
      match startup_time b with
      | Some t0 =>
          t <- datetime_now;;
          ret (" (uptime: " ++ format_1f env (total_seconds t t0 / (3600 # 1)) ++ "h)")%string
      | None => ret EmptyString
      end;;
    ret ("🟢 Central AI Brain is online" ++ uptime ++ " - "
           ++ str env (VInt (interaction_count b)) ++ " interactions processed")%string.

(** [translate_user_command(self, user_command, user_context)] *)
Definition translate_user_command (user_command : string) (user_context : option pydict)
  : M W pydict :=
  b <- get_self;;
  match is_running b, system_controller b with
  | true, Some sc =>
      try_except
        (system_action <- await (CallTranslateUserCommand user_command user_context)
                            (SystemController.translate_user_command sc user_command
                               user_context);;
         ret [ ("success", VBool true);
               ("action", VAction system_action);
               ("action_id", VStr (action_id system_action)) ])
        (fun e =>
           ret [ ("success", VBool false); ("error", VStr e); ("action", VNone) ])
  | _, _ =>
      ret [ ("success", VBool false);
            ("error", VStr "SystemController not available");
            ("action", VNone) ]
  end.

(** [execute_system_action(self, action)] *)
Definition execute_system_action (action : SystemAction) : M W pydict :=
  b <- get_self;;
  match is_running b, system_controller b with
  | true, Some sc =>
      try_except
        (await (CallExecuteSystemAction action)
           (SystemController.execute_system_action sc action))
        (fun e => ret [ ("success", VBool false); ("error", VStr e) ])
  | _, _ =>
      ret [ ("success", VBool false); ("error", VStr "SystemController not available") ]
  end.

(** The name of the type of a value, as an [AttributeError] prints it. *)
Definition type_name (v : pyval) : string :=
  match v with
  | VNone => "NoneType"
  | VBool _ => "bool"
  | VInt _ => "int"
  | VFloat _ => "float"
  | VStr _ => "str"
  | VList _ => "list"
  | VDict _ => "dict"
  | VAction _ => "SystemAction"
  end.

(** [translation_result["action"]] *)
Definition subscript (d : pydict) (k : string) : M W pyval :=
  match dict_get d k with
  | Some v => ret v
  | None => raise ("'" ++ k ++ "'")
  end.

(** The object behind [action.recommended_action], [action.user_feedback]
    and [action.action_id]: only a [SystemAction] has these attributes. *)
Definition as_system_action (v : pyval) : M W SystemAction :=
  match v with
  | VAction a => ret a
  | _ => raise ("'" ++ type_name v ++ "' object has no attribute 'recommended_action'")
  end.

(** [process_user_command(self, user_command, user_context)] *)
Definition process_user_command (user_command : string) (user_context : option pydict)
  : M W pydict :=
  try_except
    (translation_result <- translate_user_command user_command user_context;;
     if negb (truthy (dict_get_default translation_result "success" VNone)) then
       ret translation_result
     else
       action <- subscript translation_result "action";;
       action <- as_system_action action;;
       let disposition := value (recommended_action action) in
       if String.eqb disposition "request_confirmation"
          || String.eqb disposition "request_clarification"
       then
         ret [ ("success", VBool true);
               ("requires_user_input", VBool true);
               ("message", VStr (user_feedback action));
               ("action_id", VStr (action_id action));
               ("recommended_action", VStr disposition) ]
       else if String.eqb disposition "execute" then
         execution_result <- execute_system_action action;;
         ret [ ("success", dict_get_default execution_result "success" (VBool false));
               ("message",
                 dict_get_default execution_result "message" (VStr "Action completed"));
               ("action_id", VStr (action_id action));
               ("results", VDict execution_result) ]
       else
         ret [ ("success", VBool false);
               ("message", VStr (user_feedback action));
               ("action_id", VStr (action_id action));
               ("recommended_action", VStr disposition) ])
    (fun e =>
       ret [ ("success", VBool false);
             ("error", VStr e);
             ("message", VStr "I encountered an error processing your command.") ]).

End Brain.

(** ** [process_user_input] between its awaits

    The coroutine can be suspended at each of its three awaits, and other
    coroutines can run on the same brain meanwhile.  The method is cut here
    into the pieces that run without interruption: from the call to the
    first await, and from the answer of one await to the next await or to
    the return.  [process_user_input_is_its_segments] below shows that the
    pieces run back to back are the method. *)

(** A turn suspended at an await: the local variables it holds and the
    answer of the collaborator it resumes with. *)
Inductive Suspended : Type :=
| AtBuildContext (start_time : Z) (answer : Outcome pyval)
| AtGenerateResponse (start_time : Z) (answer : Outcome string)
| AtUpdateContext (start_time : Z) (response : string) (answer : Outcome unit).

(** the dict of the [except] clause of [process_user_input] *)
Definition processing_error (e : string) : pydict :=
  [ ("success", VBool false);
    ("error", VStr e);
    ("message",
      VStr "I apologize, but I encountered an error processing your request. Please try again.") ].


Section Turns.
Variable W : Type.
Variable env : Imports W.

(** the call of a collaborator, whose answer waits for the resumption *)
Definition suspend {A : Type} (c : Call) (f : W -> Outcome A * W) : M W (Outcome A) :=
  fun m =>
    let (r, w) := f (world m) in
    (Returned r, {| self := self m; world := w; calls := calls m ++ [c] |}).

(** from the call of [process_user_input] to its first await *)
Definition turn_begin (user_message context_type : string) : M W (pydict + Suspended) :=
  b <- get_self;;
  if negb (is_running b) then
    ret (inl [ ("success", VBool false);
               ("error", VStr not_running_error);
               ("message", VStr not_available_message) ])
  else
    assign (fun b => set_interaction_count (interaction_count b + 1) b);;
    start_time <- datetime_now env;;
    match context_manager b with
    | None => ret (inl (processing_error (none_has_no_attribute "build_context")))
    | Some cm =>
        answer <- suspend (CallBuildContext context_type user_message)
                    (ContextManager.build_context cm context_type user_message);;
        ret (inr (AtBuildContext start_time answer))
    end.

(** from the answer of an await to the next await, or to the return *)
Definition turn_resume (user_message context_type : string) (s : Suspended)
  : M W (pydict + Suspended) :=
  b <- get_self;;
  match s with
  | AtBuildContext start_time (Returned context) =>
      let system_prompt := _get_system_prompt b context_type in
      match ollama_client b with
      | None => ret (inl (processing_error (none_has_no_attribute "generate_response")))
      | Some oc =>
          let generation_context := [("conversation_history", context)] in
          answer <- suspend
                      (CallGenerateResponse user_message generation_context system_prompt)
                      (OllamaClient.generate_response oc user_message generation_context
                         system_prompt);;
          ret (inr (AtGenerateResponse start_time answer))
      end
  | AtGenerateResponse start_time (Returned response) =>
      match context_manager b with
      | None => ret (inl (processing_error (none_has_no_attribute "update_context")))
      | Some cm =>
          t1 <- datetime_now env;;
          let record :=
            [ ("user_message", VStr user_message);
              ("assistant_response", VStr response);
              ("context_type", VStr context_type);
              ("metadata",
                VDict [ ("interaction_id", VInt (interaction_count b));
                        ("response_time", VFloat (total_seconds t1 start_time)) ]) ] in
          answer <- suspend (CallUpdateContext record)
                      (ContextManager.update_context cm record);;
          ret (inr (AtUpdateContext start_time response answer))
      end
  | AtUpdateContext start_time response (Returned _) =>
      t2 <- datetime_now env;;
      ret (inl [ ("success", VBool true);
                 ("message", VStr response);
                 ("context_type", VStr context_type);
                 ("interaction_id", VInt (interaction_count b));
                 ("response_time", VFloat (total_seconds t2 start_time)) ])
  | AtBuildContext _ (Raised e)
  | AtGenerateResponse _ (Raised e)
  | AtUpdateContext _ _ (Raised e) => ret (inl (processing_error e))
  end.

(** a suspended turn resumed until it returns, nothing else running
    meanwhile *)
Definition turn_finish (user_message context_type : string) (s : Suspended) : M W pydict :=
  r1 <- turn_resume user_message context_type s;;
  match r1 with
  | inl d => ret d
  | inr s1 =>
      r2 <- turn_resume user_message context_type s1;;
      match r2 with
      | inl d => ret d
      | inr s2 =>
          r3 <- turn_resume user_message context_type s2;;
          match r3 with
          | inl d => ret d
          | inr _ => ret (processing_error "turn resumed past its return")
          end
      end
  end.

End Turns.

(** ** The public interface *)

(** A call of a public method, with its arguments. *)
Inductive Operation : Type :=
| OpStart
| OpStop
| OpGetHealthStatus
| OpGetSystemInsights
| OpGetStatusSummary
| OpProcessUserInput (user_message context_type : string)
| OpChatWithUserInterfaceAgent (message : string) (context : option pydict)
| OpStreamUserResponse (user_message context_type : string)
| OpCoordinateSystemAction (action : pydict)
| OpOrchestrateComplexTask (task_description : string) (context : option pydict)
| OpUpdateSystemState (state_update : pydict)
| OpValidatePatterns (patterns : list pyval)
| OpGenerateTrainingLabels (events : list pyval)
| OpValidateEmbryoTraining (embryo_data : pydict)
| OpAssessEmbryoBirthReadiness (embryo_data : pydict)
| OpTranslateUserCommand (user_command : string) (user_context : option pydict)
| OpExecuteSystemAction (action : SystemAction)
| OpProcessUserCommand (user_command : string) (user_context : option pydict).

(** What a public method hands back: [None], a dict, a string, or the
    fragments of a generator. *)
Inductive Result : Type :=
| ResNone
| ResDict (d : pydict)
| ResStr (s : string)
| ResFragments (fragments : list string).

Section Interface.
Variable W : Type.
Variable env : Imports W.

(** a method body, with its result put in [Result] *)
Definition returning {A : Type} (wrap : A -> Result) (c : M W A) : M W Result :=
  a <- c;; ret (wrap a).

Definition run (op : Operation) : M W Result :=
  match op with
  | OpStart => returning (fun _ => ResNone) (start env)
  | OpStop => returning (fun _ => ResNone) (@stop W)
  | OpGetHealthStatus => returning ResDict (get_health_status env)
  | OpGetSystemInsights => returning ResDict (get_system_insights env)
  | OpGetStatusSummary => returning ResStr (get_status_summary env)
  | OpProcessUserInput um ct => returning ResDict (process_user_input env um ct)
  | OpChatWithUserInterfaceAgent msg ctx =>
      returning ResDict (chat_with_user_interface_agent env msg ctx)
  | OpStreamUserResponse um ct => returning ResFragments (stream_user_response um ct)
  | OpCoordinateSystemAction a => returning ResDict (coordinate_system_action env a)
  | OpOrchestrateComplexTask t ctx => returning ResDict (orchestrate_complex_task t ctx)
  | OpUpdateSystemState u => returning (fun _ => ResNone) (update_system_state env u)
  | OpValidatePatterns p => returning ResDict (validate_patterns p)
  | OpGenerateTrainingLabels e => returning ResDict (generate_training_labels e)
  | OpValidateEmbryoTraining d => returning ResDict (validate_embryo_training d)
  | OpAssessEmbryoBirthReadiness d => returning ResDict (assess_embryo_birth_readiness d)
  | OpTranslateUserCommand c ctx => returning ResDict (translate_user_command c ctx)
  | OpExecuteSystemAction a => returning ResDict (execute_system_action a)
  | OpProcessUserCommand c ctx => returning ResDict (process_user_command c ctx)
  end.

(** [create_central_brain(config)]: the outcome of [start] and the machine
    it leaves, from collaborators in state [w]. *)
Definition create_central_brain (cfg : pydict) (w : W) : Outcome unit * Machine W :=
  start env {| self := init W cfg; world := w; calls := [] |}.

(** Calls made one after the other; a call that raises leaves the machine as
    it was at the raise and the next one goes on from there. *)
Fixpoint run_all (ops : list Operation) (m : Machine W) : Machine W :=
  match ops with
  | [] => m
  | op :: rest => run_all rest (snd (run op m))
  end.

End Interface.

(** [start], [stop] and the health and status reads. *)
Definition lifecycle_or_read (op : Operation) : bool :=
  match op with
  | OpStart | OpStop | OpGetHealthStatus | OpGetSystemInsights | OpGetStatusSummary => true
  | _ => false
  end.

(** The methods that test [self.is_running] first and answer with a dict. *)
Definition checks_running (op : Operation) : bool :=
  match op with
  | OpProcessUserInput _ _ | OpChatWithUserInterfaceAgent _ _
  | OpCoordinateSystemAction _ | OpOrchestrateComplexTask _ _
  | OpGenerateTrainingLabels _ | OpValidateEmbryoTraining _
  | OpAssessEmbryoBirthReadiness _ | OpTranslateUserCommand _ _
  | OpExecuteSystemAction _ | OpProcessUserCommand _ _ => true
  | _ => false
  end.

(** A dict with [success] set to [False]. *)
Definition failure_result (r : Result) : Prop :=
  exists d, r = ResDict d /\ dict_get d "success" = Some (VBool false).

(** How many calls of the action executor a log holds. *)
Fixpoint executor_calls (log : list Call) : nat :=
  match log with
  | [] => 0%nat
  | CallExecuteSystemAction _ :: rest => S (executor_calls rest)
  | _ :: rest => executor_calls rest
  end.

(** The records handed to [update_context], oldest first. *)
Fixpoint context_writes (log : list Call) : list pydict :=
  match log with
  | [] => []
  | CallUpdateContext record :: rest => record :: context_writes rest
  | _ :: rest => context_writes rest
  end.

(** The methods that can let an exception out: [start] raises again what
    it caught, and [get_health_status], [get_system_insights] and
    [update_system_state] call a collaborator outside any [try]. *)
Definition may_raise (op : Operation) : bool :=
  match op with
  | OpStart | OpGetHealthStatus | OpGetSystemInsights | OpUpdateSystemState _ => true
  | _ => false
  end.

(** The reads, the delegations and the command pipeline: no statement of
    theirs, or of a method they call, assigns an attribute of the brain. *)
Definition assigns_nothing (op : Operation) : bool :=
  match op with
  | OpGetHealthStatus | OpGetSystemInsights | OpGetStatusSummary
  | OpCoordinateSystemAction _ | OpOrchestrateComplexTask _ _
  | OpUpdateSystemState _ | OpValidatePatterns _
  | OpGenerateTrainingLabels _ | OpValidateEmbryoTraining _
  | OpAssessEmbryoBirthReadiness _ | OpTranslateUserCommand _ _
  | OpExecuteSystemAction _ | OpProcessUserCommand _ _ => true
  | _ => false
  end.

(** [start] and [stop]. *)
Definition lifecycle (op : Operation) : bool :=
  match op with
  | OpStart | OpStop => true
  | _ => false
  end.

(** [start] alone. *)
Definition starts (op : Operation) : bool :=
  match op with
  | OpStart => true
  | _ => false
  end.

(** The two brains have the same [is_running], the same [startup_time] and
    the same collaborators. *)
Definition same_lifecycle_and_collaborators (W : Type) (b b' : CentralAIBrain W) : Prop :=
  is_running b' = is_running b /\
  startup_time b' = startup_time b /\
  ollama_client b' = ollama_client b /\
  context_manager b' = context_manager b /\
  user_interface b' = user_interface b /\
  agent_orchestrator b' = agent_orchestrator b /\
  embryo_trainer b' = embryo_trainer b /\
  system_controller b' = system_controller b.

(** A brain that is running has its generation client, its context store
    and its start time. *)
Definition core_in_place (W : Type) (b : CentralAIBrain W) : Prop :=
  is_running b = true ->
  ollama_client b <> None /\ context_manager b <> None /\ startup_time b <> None.

(** The apology [stream_user_response] yields when its [try] block raises. *)
Definition stream_error_message : string :=
  "I apologize, but I encountered an error. Please try again.".

(** ** A concrete installation

    Collaborators whose state is the clock alone, used to run the methods on
    explicit inputs. *)

Module Demo.

Definition W : Type := Z.

Definition ollama (healthy : bool) (answer : Outcome string)
    (fragments : list string * option string) : OllamaClient.t W := {|
  OllamaClient.start := fun w => (Returned tt, w);
  OllamaClient.close := fun w => (Returned tt, w);
  OllamaClient.generate_response := fun _ _ _ w => (answer, w);
  OllamaClient.stream_response := fun _ _ _ w => (fragments, w);
  OllamaClient.get_health_status := fun w =>
    (Returned [("is_healthy", VBool healthy); ("model_name", VStr "llama3")], w)
|}.

Definition context_store : ContextManager.t W := {|
  ContextManager.build_context := fun _ _ w => (Returned (VList []), w);
  ContextManager.update_context := fun _ w => (Returned tt, w);
  ContextManager.get_context_summary := fun w => (Returned (VDict []), w)
|}.

Definition ui_agent : UserInterfaceAgent.t W := {|
  UserInterfaceAgent.process_chat_message := fun message _ w =>
    (Returned [("success", VBool true); ("message", VStr message)], w)
|}.

Definition orchestrator : AgentOrchestrator.t W := {|
  AgentOrchestrator.coordinate_task := fun _ _ w => (Returned [("success", VBool true)], w)
|}.

Definition trainer : EmbryoTrainer.t W := {|
  EmbryoTrainer.generate_training_labels := fun _ w => (Returned [("success", VBool true)], w);
  EmbryoTrainer.validate_embryo_training := fun _ w => (Returned [("success", VBool true)], w);
  EmbryoTrainer.assess_birth_readiness := fun _ w => (Returned [("success", VBool true)], w)
|}.

(** the action the translator makes of every command, with disposition
    [verdict] *)
Definition action (verdict : string) : SystemAction :=
  {| action_id := "act-1";
     recommended_action := {| value := verdict |};
     user_feedback := "feedback" |}.

Definition controller (verdict : string) : SystemController.t W := {|
  SystemController.translate_user_command := fun _ _ w => (Returned (action verdict), w);
  SystemController.execute_system_action := fun _ w =>
    (Returned [("success", VBool true); ("message", VStr "done")], w)
|}.

Definition imports (healthy : bool) (answer : Outcome string)
    (fragments : list string * option string) (verdict : string) : Imports W := {|
  new_OllamaClient := fun _ w => (Returned (ollama healthy answer fragments), w);
  new_ContextManager := fun _ w => (Returned context_store, w);
  new_UserInterfaceAgent := fun w => (Returned ui_agent, w);
  new_AgentOrchestrator := fun w => (Returned orchestrator, w);
  new_EmbryoTrainer := fun w => (Returned trainer, w);
  new_SystemController := fun w => (Returned (controller verdict), w);
  now := fun w => (w, w + 250000);
  isoformat := fun _ => "2024-01-01T00:00:00";
  str := fun _ => "?";
  format_1f := fun _ => "0.0"
|}.

(** a healthy installation that answers [pong], in one piece or in two *)
Definition healthy (verdict : string) : Imports W :=
  imports true (Returned "pong") (["po"; "ng"], None) verdict.

(** the same with a generation client that raises on every request *)
Definition failing_generation : Imports W :=
  imports true (Raised "connection refused") ([], Some "connection refused") "execute".

(** an installation whose generation client reports unhealthy *)
Definition unhealthy : Imports W :=
  imports false (Returned "pong") (["po"; "ng"], None) "execute".

(** an installation in which the first specialised agent cannot be built, so
    that [start] leaves the brain running with no agent at all *)
Definition without_agents : Imports W := {|
  new_OllamaClient := new_OllamaClient (healthy "execute");
  new_ContextManager := new_ContextManager (healthy "execute");
  new_UserInterfaceAgent := fun w => (Raised "agent unavailable", w);
  new_AgentOrchestrator := new_AgentOrchestrator (healthy "execute");
  new_EmbryoTrainer := new_EmbryoTrainer (healthy "execute");
  new_SystemController := new_SystemController (healthy "execute");
  now := now (healthy "execute");
  isoformat := isoformat (healthy "execute");
  str := str (healthy "execute");
  format_1f := format_1f (healthy "execute")
|}.

(** a brain just constructed, nothing called yet *)
Definition fresh : Machine W := {| self := init W []; world := 0; calls := [] |}.

(** the machine after [start] *)
Definition started (env : Imports W) : Machine W := snd (start env fresh).

(** a running brain whose translator answers [verdict] *)
Definition running (verdict : string) : Machine W := started (healthy verdict).

End Demo.

(** ** Collaborators that fail

    The same installation with one collaborator replaced by one that raises. *)

Module Faults.

(** a generation client that is healthy, cannot be closed, and whose stream
    breaks after the first fragment *)
Definition ollama_breaks : OllamaClient.t Demo.W := {|
  OllamaClient.start := fun w => (Returned tt, w);
  OllamaClient.close := fun w => (Raised "socket already closed", w);
  OllamaClient.generate_response := fun _ _ _ w => (Raised "model not loaded", w);
  OllamaClient.stream_response := fun _ _ _ w => ((["po"], Some "connection reset"), w);
  OllamaClient.get_health_status := fun w =>
    (Returned [("is_healthy", VBool true); ("model_name", VStr "llama3")], w)
|}.

(** a context store that builds contexts and refuses every write *)
Definition store_refuses_writes : ContextManager.t Demo.W := {|
  ContextManager.build_context := fun _ _ w => (Returned (VList []), w);
  ContextManager.update_context := fun _ w => (Raised "disk full", w);
  ContextManager.get_context_summary := fun w => (Returned (VDict []), w)
|}.

(** a context store that cannot build a context *)
Definition store_cannot_build : ContextManager.t Demo.W := {|
  ContextManager.build_context := fun _ _ w => (Raised "history unavailable", w);
  ContextManager.update_context := fun _ w => (Returned tt, w);
  ContextManager.get_context_summary := fun w => (Returned (VDict []), w)
|}.

(** a translator that raises on every command *)
Definition controller_cannot_translate : SystemController.t Demo.W := {|
  SystemController.translate_user_command := fun _ _ w => (Raised "no intent found", w);
  SystemController.execute_system_action := fun _ w =>
    (Returned [("success", VBool true); ("message", VStr "done")], w)
|}.


Definition orchestrator_raises : AgentOrchestrator.t Demo.W := {|
  AgentOrchestrator.coordinate_task := fun _ _ w => (Raised "no agent free", w)
|}.

Definition imports (oc : OllamaClient.t Demo.W) (cm : ContextManager.t Demo.W)
    (ao : AgentOrchestrator.t Demo.W) (sc : SystemController.t Demo.W) : Imports Demo.W := {|
  new_OllamaClient := fun _ w => (Returned oc, w);
  new_ContextManager := fun _ w => (Returned cm, w);
  new_UserInterfaceAgent := fun w => (Returned Demo.ui_agent, w);
  new_AgentOrchestrator := fun w => (Returned ao, w);
  new_EmbryoTrainer := fun w => (Returned Demo.trainer, w);
  new_SystemController := fun w => (Returned sc, w);
  now := fun w => (w, w + 250000);
  isoformat := fun _ => "2024-01-01T00:00:00";
  str := fun _ => "?";
  format_1f := fun _ => "0.0"
|}.

(** the brain after [start] in such an installation *)
Definition running (oc : OllamaClient.t Demo.W) (cm : ContextManager.t Demo.W)
    (ao : AgentOrchestrator.t Demo.W) (sc : SystemController.t Demo.W) : Machine Demo.W :=
  Demo.started (imports oc cm ao sc).

(** the healthy generation client of the demo installation *)
Definition ollama_ok : OllamaClient.t Demo.W :=
  Demo.ollama true (Returned "pong") (["po"; "ng"], None).

(** running brains with one failing collaborator each *)
Definition client_breaks : Machine Demo.W :=
  Demo.started (imports ollama_breaks Demo.context_store Demo.orchestrator
                  (Demo.controller "execute")).

Definition store_refuses : Machine Demo.W :=
  Demo.started (imports ollama_ok store_refuses_writes Demo.orchestrator
                  (Demo.controller "execute")).

Definition translator_raises : Machine Demo.W :=
  Demo.started (imports ollama_ok Demo.context_store Demo.orchestrator
                  controller_cannot_translate).


Definition orchestrator_fails : Machine Demo.W :=
  Demo.started (imports ollama_ok Demo.context_store orchestrator_raises
                  (Demo.controller "execute")).



(** an installation in which the trainer cannot be built: the two agents
    before it are, the system controller is not attempted *)
Definition trainer_cannot_be_built : Imports Demo.W := {|
  new_OllamaClient := fun _ w => (Returned ollama_ok, w);
  new_ContextManager := fun _ w => (Returned Demo.context_store, w);
  new_UserInterfaceAgent := fun w => (Returned Demo.ui_agent, w);
  new_AgentOrchestrator := fun w => (Returned Demo.orchestrator, w);
  new_EmbryoTrainer := fun w => (Raised "no training data", w);
  new_SystemController := fun w => (Returned (Demo.controller "execute"), w);
  now := fun w => (w, w + 250000);
  isoformat := fun _ => "2024-01-01T00:00:00";
  str := fun _ => "?";
  format_1f := fun _ => "0.0"
|}.

(** two turns on the demo brain, the second begun while the first is
    suspended at its first await *)
Definition first_turn_begun : Outcome (pydict + Suspended) * Machine Demo.W :=
  turn_begin (Demo.healthy "execute") "hi" "chat" (Demo.running "execute").

Definition second_turn_begun : Outcome (pydict + Suspended) * Machine Demo.W :=
  turn_begin (Demo.healthy "execute") "hello" "chat" (snd first_turn_begun).

(** the first turn resumed to its return, then the second *)
Definition first_turn_finished : Outcome pydict * Machine Demo.W :=
  turn_finish (Demo.healthy "execute") "hi" "chat"
    (AtBuildContext 250000 (Returned (VList []))) (snd second_turn_begun).

Definition second_turn_finished : Outcome pydict * Machine Demo.W :=
  turn_finish (Demo.healthy "execute") "hello" "chat"
    (AtBuildContext 500000 (Returned (VList []))) (snd first_turn_finished).

End Faults.

(** * Properties *)

(** ** Running a method body

    The bodies are closed programs over the collaborators' answers, so a
    statement about one is settled by unfolding it and following each branch. *)

Ltac unfold_monad :=
  unfold returning, gen_do, gen_yield, gen_done, getattr, datetime_now, subscript,
    as_system_action in *;
  unfold try_except, bind, ret, raise, get_self, assign, await, invoke in *.

(** the scrutinee of an innermost [match] of a term *)
Ltac innermost_scrutinee x :=
  lazymatch x with
  | context [match ?y with _ => _ end] => innermost_scrutinee y
  | _ => x
  end.

Ltac case_step :=
  match goal with
  | |- context [match ?x with _ => _ end] =>
      let y := innermost_scrutinee x in destruct y eqn:?
  end.

Ltac run_body := unfold_monad; cbn; repeat (case_step; cbn in *); try congruence.

Ltac unfold_turn :=
  unfold turn_finish, turn_resume, turn_begin, suspend, processing_error in *.

Ltac unfold_methods :=
  unfold start, _initialize_specialized_agents, stop, get_health_status,
    get_system_insights, get_status_summary, chat_with_user_interface_agent,
    process_user_input, stream_user_response, coordinate_system_action,
    orchestrate_complex_task, update_system_state, validate_patterns,
    generate_training_labels, validate_embryo_training, assess_embryo_birth_readiness,
    process_user_command, translate_user_command, execute_system_action in *.

Section Facts.
Variable W : Type.
Variable env : Imports W.

(** *** The command pipeline *)

(** What [process_user_command] does once the translator has returned an
    action: the result and the final machine, by disposition. *)
Lemma process_user_command_translated (m : Machine W) (cmd : string) (ctx : option pydict)
    (sc : SystemController.t W) (a : SystemAction) (w' : W) :
  is_running (self m) = true ->
  system_controller (self m) = Some sc ->
  SystemController.translate_user_command sc cmd ctx (world m) = (Returned a, w') ->
  let v := value (recommended_action a) in
  let translated :=
    {| self := self m; world := w'; calls := calls m ++ [CallTranslateUserCommand cmd ctx] |} in
  process_user_command cmd ctx m =
    if String.eqb v "request_confirmation" || String.eqb v "request_clarification" then
      (Returned [ ("success", VBool true);
                  ("requires_user_input", VBool true);
                  ("message", VStr (user_feedback a));
                  ("action_id", VStr (action_id a));
                  ("recommended_action", VStr v) ], translated)
    else if String.eqb v "execute" then
      match SystemController.execute_system_action sc a w' with
      | (Returned r, w'') =>
          (Returned [ ("success", dict_get_default r "success" (VBool false));
                      ("message", dict_get_default r "message" (VStr "Action completed"));
                      ("action_id", VStr (action_id a));
                      ("results", VDict r) ],
           {| self := self m; world := w'';
              calls := (calls m ++ [CallTranslateUserCommand cmd ctx])
                         ++ [CallExecuteSystemAction a] |})
      | (Raised e, w'') =>
          (Returned [ ("success", VBool false);
                      ("message", VStr "Action completed");
                      ("action_id", VStr (action_id a));
                      ("results", VDict [("success", VBool false); ("error", VStr e)]) ],
           {| self := self m; world := w'';
              calls := (calls m ++ [CallTranslateUserCommand cmd ctx])
                         ++ [CallExecuteSystemAction a] |})
      end
    else
      (Returned [ ("success", VBool false);
                  ("message", VStr (user_feedback a));
                  ("action_id", VStr (action_id a));
                  ("recommended_action", VStr v) ], translated).
Proof.
  intros Hrun Hsc Htr v translated.
  unfold process_user_command, translate_user_command, execute_system_action.
  unfold_monad. cbn. rewrite Hrun, Hsc. cbn. rewrite Htr. cbn.
  subst v translated.
  destruct (String.eqb _ "request_confirmation" || String.eqb _ "request_clarification");
    [reflexivity|].
  destruct (String.eqb _ "execute"); [|reflexivity].
  cbn. rewrite Hrun, Hsc. cbn.
  destruct (SystemController.execute_system_action sc a w') as [[r|e] w''];
    reflexivity.
Qed.

Lemma executor_calls_app (l1 l2 : list Call) :
  executor_calls (l1 ++ l2) = (executor_calls l1 + executor_calls l2)%nat.
Proof.
  induction l1 as [|c l1 IH]; cbn; [reflexivity|].
  destruct c; cbn; rewrite IH; reflexivity.
Qed.


(** C10.  An action whose [recommended_action] value is none of [execute],
    [request_confirmation], [request_clarification] -- [deny] or any string
    outside the enum -- gets the failure result with [user_feedback],
    [action_id] and the value itself, and the executor is not called: the
    translator call is the only one logged. *)
Theorem unknown_disposition_handled_as_deny (m : Machine W) (cmd : string)
    (ctx : option pydict) (sc : SystemController.t W) (a : SystemAction) (w' : W) :
  is_running (self m) = true ->
  system_controller (self m) = Some sc ->
  SystemController.translate_user_command sc cmd ctx (world m) = (Returned a, w') ->
  value (recommended_action a) <> "execute" ->
  value (recommended_action a) <> "request_confirmation" ->
  value (recommended_action a) <> "request_clarification" ->
  process_user_command cmd ctx m =
    (Returned [ ("success", VBool false);
                ("message", VStr (user_feedback a));
                ("action_id", VStr (action_id a));
                ("recommended_action", VStr (value (recommended_action a))) ],
     {| self := self m; world := w';
        calls := calls m ++ [CallTranslateUserCommand cmd ctx] |}) /\
  executor_calls (calls (snd (process_user_command cmd ctx m))) = executor_calls (calls m).
Proof.
  intros Hrun Hsc Htr He Hc Hq.
  rewrite (process_user_command_translated m cmd ctx Hrun Hsc Htr). cbv zeta.
  apply String.eqb_neq in He, Hc, Hq. rewrite He, Hc, Hq. cbn.
  split; [reflexivity|].
  rewrite executor_calls_app. cbn. lia.
Qed.

(** *** Calls made while the brain is not running *)

(** Every method that tests [is_running] first answers a not-running brain
    with a failure dict, calls no collaborator and changes nothing. *)
Lemma not_running_failure (op : Operation) (m : Machine W) :
  checks_running op = true ->
  is_running (self m) = false ->
  exists d, run env op m = (Returned (ResDict d), m) /\
            dict_get d "success" = Some (VBool false).
Proof.
  intros Hop Hrun.
  destruct op; try discriminate Hop; cbn;
    unfold process_user_input, chat_with_user_interface_agent, coordinate_system_action,
      orchestrate_complex_task, generate_training_labels, validate_embryo_training,
      assess_embryo_birth_readiness, process_user_command, translate_user_command,
      execute_system_action;
    unfold_monad; cbn; rewrite Hrun; cbn;
    eexists; split; reflexivity.
Qed.

(** C2, as the code has it.  Called on a brain that is not running, each of
    [process_user_input], [chat_with_user_interface_agent],
    [coordinate_system_action], [orchestrate_complex_task],
    [generate_training_labels], [validate_embryo_training],
    [assess_embryo_birth_readiness], [translate_user_command],
    [execute_system_action] and [process_user_command] returns a dict with
    [success] false, raises nothing and leaves brain, collaborators and call
    log untouched; [stream_user_response] yields the one apology fragment;
    [validate_patterns] has no such test and returns its placeholder dict,
    which has no [success] key; [update_system_state] has none either and
    returns [None] whenever it returns. *)
Theorem not_running_guarded_operations_fail (op : Operation) (m : Machine W)
    (um ct : string) (patterns : list pyval) (state_update : pydict) :
  checks_running op = true ->
  is_running (self m) = false ->
  (exists d, run env op m = (Returned (ResDict d), m) /\
             dict_get d "success" = Some (VBool false)) /\
  run env (OpStreamUserResponse um ct) m =
    (Returned (ResFragments [not_available_message]), m) /\
  (exists d, run env (OpValidatePatterns patterns) m = (Returned (ResDict d), m) /\
             dict_get d "success" = None) /\
  (forall r m', run env (OpUpdateSystemState state_update) m = (Returned r, m') ->
                r = ResNone).
Proof.
  intros Hop Hrun. split; [apply not_running_failure; assumption|]. split; [|split].
  - cbn. unfold stream_user_response. unfold_monad. cbn. rewrite Hrun. reflexivity.
  - cbn. unfold validate_patterns. unfold_monad. eexists. split; reflexivity.
  - intros r m'. cbn. unfold update_system_state. unfold_monad. cbn.
    repeat (case_step; cbn in * ); congruence.
Qed.

(** *** Translator guard *)

(** C8, as the code has it.  [translate_user_command] has one guard for both
    conditions: on a brain that is not running, and on a running brain with
    no system controller, it returns the same dict, whose [error] is
    [SystemController not available]; nothing in the result tells the two
    apart, and nothing is called or changed. *)
Theorem translate_guard_same_failure (m : Machine W) (cmd : string) (ctx : option pydict) :
  is_running (self m) = false \/ system_controller (self m) = None ->
  translate_user_command cmd ctx m =
    (Returned [ ("success", VBool false);
                ("error", VStr "SystemController not available");
                ("action", VNone) ], m) /\
  process_user_command cmd ctx m = translate_user_command cmd ctx m.
Proof.
  intros H.
  assert (Ht : translate_user_command cmd ctx m =
    (Returned [ ("success", VBool false);
                ("error", VStr "SystemController not available");
                ("action", VNone) ], m)).
  { unfold translate_user_command. unfold_monad. cbn.
    destruct H as [H|H]; rewrite H; [reflexivity|].
    destruct (is_running (self m)); reflexivity. }
  split; [exact Ht|].
  unfold process_user_command. unfold_monad. rewrite Ht. reflexivity.
Qed.

(** *** Conversational routing *)

(** [process_user_input] always returns a dict. *)
Lemma process_user_input_returns (um ct : string) (m : Machine W) :
  exists d m', process_user_input env um ct m = (Returned d, m').
Proof.
  unfold process_user_input. run_body; eauto.
Qed.

(** C9.  On a running brain [chat_with_user_interface_agent] hands the turn
    to the user-interface agent when there is one and returns what it
    returns; when there is none, or when the agent raises, it returns the
    result of [process_user_input(message, "chat")]; in every case it
    returns a dict and raises nothing. *)
Theorem chat_delegates_or_falls_back (m : Machine W) (message : string)
    (context : option pydict) :
  is_running (self m) = true ->
  match user_interface (self m) with
  | None =>
      chat_with_user_interface_agent env message context m =
        process_user_input env message "chat" m
  | Some ui =>
      let delegated w :=
        {| self := self m; world := w;
           calls := calls m ++ [CallProcessChatMessage message context] |} in
      match UserInterfaceAgent.process_chat_message ui message context (world m) with
      | (Returned d, w) =>
          chat_with_user_interface_agent env message context m = (Returned d, delegated w)
      | (Raised _, w) =>
          chat_with_user_interface_agent env message context m =
            process_user_input env message "chat" (delegated w)
      end
  end /\
  exists d m', chat_with_user_interface_agent env message context m = (Returned d, m').
Proof.
  intros Hrun.
  unfold chat_with_user_interface_agent. unfold_monad.
  cbn -[process_user_input]. rewrite Hrun. cbn -[process_user_input].
  destruct (user_interface (self m)) as [ui|].
  - destruct (UserInterfaceAgent.process_chat_message ui message context (world m))
      as [[d|e] w]; split; try reflexivity; eauto.
    apply process_user_input_returns.
  - split; [reflexivity|]. apply process_user_input_returns.
Qed.

(** *** Prompt selection *)

(** C6.  [_get_system_prompt] reads nothing but [context_type]: the four
    known types give the base prompt followed by their own sentence, every
    other type gives the base prompt, the five prompts are pairwise
    different, and the answer is the same on every brain. *)
Theorem system_prompt_selected_by_context_type (b b' : CentralAIBrain W) (ct : string) :
  ct <> "chat" ->
  ct <> "system_control" ->
  ct <> "agent_orchestration" ->
  ct <> "embryo_training" ->
  _get_system_prompt b "chat" =
    (base_prompt ++ blank_line
      ++ "You are in casual conversation mode. Be friendly and helpful.")%string /\
  _get_system_prompt b "system_control" =
    (base_prompt ++ blank_line
      ++ "You are in system control mode. Focus on understanding and executing system commands safely.")%string /\
  _get_system_prompt b "agent_orchestration" =
    (base_prompt ++ blank_line
      ++ "You are coordinating multiple agents. Focus on task delegation and result synthesis.")%string /\
  _get_system_prompt b "embryo_training" =
    (base_prompt ++ blank_line
      ++ "You are evaluating embryo training. Focus on pattern analysis and specialization recommendations.")%string /\
  _get_system_prompt b ct = base_prompt /\
  NoDup (map (_get_system_prompt b)
           ["chat"; "system_control"; "agent_orchestration"; "embryo_training"; ct]) /\
  (forall context_type, _get_system_prompt b context_type = _get_system_prompt b' context_type).
Proof.
  intros H1 H2 H3 H4.
  assert (Hct : _get_system_prompt b ct = base_prompt).
  { unfold _get_system_prompt.
    apply String.eqb_neq in H1, H2, H3, H4. rewrite H1, H2, H3, H4. reflexivity. }
  repeat split; try reflexivity; try exact Hct.
  cbn [map]. rewrite Hct.
  repeat constructor; cbn [In]; intros H;
    repeat match type of H with
           | _ \/ _ => destruct H as [H|H]
           | False => exact H
           | _ = _ => apply String.eqb_eq in H; vm_compute in H; discriminate H
           end.
Qed.

(** *** Lifecycle *)

(** [stop] never writes [startup_time] or [interaction_count]. *)
Lemma stop_keeps_startup_time (m : Machine W) :
  startup_time (self (snd (stop m))) = startup_time (self m) /\
  interaction_count (self (snd (stop m))) = interaction_count (self m).
Proof.
  unfold stop. run_body; auto.
Qed.

(** Whatever the collaborators do, a [start] that raises has written neither
    [is_running] nor [startup_time], and a [start] that returns has set
    [is_running] and stamped [startup_time] with a reading of the clock. *)
Lemma start_outcome (m : Machine W) :
  match start env m with
  | (Raised _, m') =>
      is_running (self m') = is_running (self m) /\
      startup_time (self m') = startup_time (self m)
  | (Returned _, m') =>
      is_running (self m') = true /\
      exists w, startup_time (self m') = Some (fst (now env w))
  end.
Proof.
  unfold start, _initialize_specialized_agents, get_health_status.
  run_body; auto;
    match goal with
    | H : now env ?w = (?t, _) |- _ =>
        split; [reflexivity | exists w; rewrite H; reflexivity]
    end.
Qed.


(** C4, as the code has it.  When the generation client that [start] has
    constructed and started answers the health query of [start] with an
    [is_healthy] that is not true, [start] raises, [is_running] remains
    false, [startup_time] keeps the value it had (absent on a brain never
    started), the counter and the four agents are untouched, and every
    method that tests [is_running] still answers with a failure dict.  The
    generation client, started and not closed, and the context store built
    before the health query stay assigned to the brain. *)
Theorem start_fails_when_generation_client_unhealthy (m : Machine W)
    (oc : OllamaClient.t W) (cm : ContextManager.t W) (d : pydict) (w1 w2 w3 w4 : W) :
  is_running (self m) = false ->
  new_OllamaClient env (ai_config (self m)) (world m) = (Returned oc, w1) ->
  OllamaClient.start oc w1 = (Returned tt, w2) ->
  new_ContextManager env (context_config (self m)) w2 = (Returned cm, w3) ->
  OllamaClient.get_health_status oc w3 = (Returned d, w4) ->
  truthy (dict_get_default d "is_healthy" (VBool false)) = false ->
  let m' :=
    {| self := set_context_manager (Some cm) (set_ollama_client (Some oc) (self m));
       world := snd (ContextManager.get_context_summary cm w4);
       calls := calls m ++ [CallOllamaStart] |} in
  start env m =
    (Raised match fst (ContextManager.get_context_summary cm w4) with
            | Returned _ => "Ollama client is not healthy"
            | Raised e => e
            end, m') /\
  is_running (self m') = false /\
  startup_time (self m') = startup_time (self m) /\
  (startup_time (self m) = None -> startup_time (self m') = None) /\
  interaction_count (self m') = interaction_count (self m) /\
  user_interface (self m') = user_interface (self m) /\
  agent_orchestrator (self m') = agent_orchestrator (self m) /\
  embryo_trainer (self m') = embryo_trainer (self m) /\
  system_controller (self m') = system_controller (self m) /\
  ollama_client (self m') = Some oc /\
  context_manager (self m') = Some cm /\
  (forall op,
     checks_running op = true ->
     exists r,
       run env op m' = (Returned (ResDict r), m') /\
       dict_get r "success" = Some (VBool false)).
Proof.
  intros Hrun Hnew Hst Hcm Hh Hbad m'.
  split.
  - unfold start, get_health_status. unfold_monad.
    cbn -[_initialize_specialized_agents].
    rewrite Hnew. cbn -[_initialize_specialized_agents].
    rewrite Hst. cbn -[_initialize_specialized_agents].
    rewrite Hcm. cbn -[_initialize_specialized_agents].
    rewrite Hh. cbn -[_initialize_specialized_agents].
    subst m'.
    destruct (ContextManager.get_context_summary cm w4) as [[summary|e] w5];
      cbn -[_initialize_specialized_agents]; [|reflexivity].
    rewrite Hbad. reflexivity.
  - subst m'. cbn.
    repeat (split; [first [assumption | reflexivity | (intros H; exact H)]|]).
    intros op Hop. apply not_running_failure; [exact Hop | exact Hrun].
Qed.



(** *** The interaction counter *)

(** No public method lowers [interaction_count]. *)
Lemma interaction_count_monotone (op : Operation) (m : Machine W) :
  interaction_count (self m) <= interaction_count (self (snd (run env op m))).
Proof.
  destruct op; cbn;
    unfold start, _initialize_specialized_agents, stop, get_health_status,
      get_system_insights, get_status_summary, chat_with_user_interface_agent,
      process_user_input, stream_user_response, coordinate_system_action,
      orchestrate_complex_task, update_system_state, validate_patterns,
      generate_training_labels, validate_embryo_training, assess_embryo_birth_readiness,
      process_user_command, translate_user_command, execute_system_action;
    run_body; lia.
Qed.

Lemma interaction_count_monotone_all (ops : list Operation) (m : Machine W) :
  interaction_count (self m) <= interaction_count (self (run_all env ops m)).
Proof.
  revert m. induction ops as [|op ops IH]; intros m; cbn; [lia|].
  pose proof (interaction_count_monotone op m). specialize (IH (snd (run env op m))). lia.
Qed.

(** A turn of [process_user_input] on a running brain adds one to the
    counter, whether it completes or a collaborator raises. *)
Lemma process_user_input_increments (um ct : string) (m : Machine W) :
  is_running (self m) = true ->
  interaction_count (self (snd (process_user_input env um ct m))) =
    interaction_count (self m) + 1.
Proof.
  intros Hrun. unfold process_user_input. unfold_monad. cbn. rewrite Hrun. cbn.
  repeat (case_step; cbn in * ); reflexivity.
Qed.

(** A completed turn reports the counter as it stands after its own
    increment. *)
Lemma process_user_input_success_id (um ct : string) (m : Machine W) (d : pydict) :
  fst (process_user_input env um ct m) = Returned d ->
  dict_get d "success" = Some (VBool true) ->
  is_running (self m) = true /\
  dict_get d "interaction_id" = Some (VInt (interaction_count (self m) + 1)).
Proof.
  unfold process_user_input. unfold_monad. cbn.
  repeat (case_step; cbn in * ); intros Hd Hs; inversion Hd; subst d; cbn in *;
    try discriminate Hs; split; try reflexivity;
    match goal with
    | H : negb ?b = false |- ?b = true => destruct b; [reflexivity | discriminate H]
    end.
Qed.


(** C3, as the code has it.  Every turn of [process_user_input] that passes
    the running test adds exactly one to [interaction_count], whether it
    completes or a collaborator raises in it; no public method, called in any
    order, ever lowers the counter; a completed turn that runs from its call
    to its return with nothing else in between reports the counter it has
    just incremented, so two completed turns of which the second is called
    after the first has returned, with any calls in between, report
    different interaction ids. *)
Theorem interaction_count_per_non_streaming_turn (m : Machine W) (um ct um' ct' : string)
    (ops : list Operation) :
  is_running (self m) = true ->
  let turn := process_user_input env um ct m in
  let later := run_all env ops (snd turn) in
  let turn' := process_user_input env um' ct' later in
  interaction_count (self (snd turn)) = interaction_count (self m) + 1 /\
  interaction_count (self m) <= interaction_count (self (run_all env ops m)) /\
  (forall d,
     fst turn = Returned d ->
     dict_get d "success" = Some (VBool true) ->
     dict_get d "interaction_id" = Some (VInt (interaction_count (self m) + 1))) /\
  (forall d d',
     fst turn = Returned d ->
     dict_get d "success" = Some (VBool true) ->
     fst turn' = Returned d' ->
     dict_get d' "success" = Some (VBool true) ->
     dict_get d "interaction_id" <> dict_get d' "interaction_id").
Proof.
  intros Hrun turn later turn'.
  pose proof (process_user_input_increments um ct m Hrun) as Hinc.
  split; [exact Hinc|]. split; [apply interaction_count_monotone_all|]. split.
  - intros d Hd Hs. apply (process_user_input_success_id um ct m Hd Hs).
  - intros d d' Hd Hs Hd' Hs'.
    destruct (process_user_input_success_id um ct m Hd Hs) as [_ Hid].
    destruct (process_user_input_success_id um' ct' later Hd' Hs') as [_ Hid'].
    rewrite Hid, Hid'. intros Heq. inversion Heq as [Hz].
    pose proof (interaction_count_monotone_all ops (snd turn)) as Hmono.
    fold later in Hmono. subst turn. lia.
Qed.

(** *** Turns that overlap *)

(** The pieces of a turn, run back to back, are [process_user_input]. *)
Lemma process_user_input_is_its_segments (um ct : string) (m : Machine W) :
  process_user_input env um ct m =
    (r <- turn_begin env um ct;;
     match r with
     | inl d => ret d
     | inr s => turn_finish env um ct s
     end) m.
Proof.
  unfold process_user_input. unfold_turn. unfold_monad.
  unfold _get_system_prompt. cbn.
  destruct (negb (is_running (self m))); cbn; [reflexivity|].
  destruct (now env (world m)) as [t0 w0]. cbn.
  destruct (context_manager (self m)) as [cm|] eqn:Hcm; cbn; [|reflexivity].
  destruct (ContextManager.build_context cm ct um w0) as [[context|e] w1]; cbn;
    [|reflexivity].
  destruct (ollama_client (self m)) as [oc|] eqn:Hoc; cbn; [|reflexivity].
  destruct (OllamaClient.generate_response oc um _ _ w1) as [[response|e] w2]; cbn;
    rewrite ?Hcm; cbn; [|reflexivity].
  destruct (now env w2) as [t1 w3]. cbn.
  destruct (ContextManager.update_context cm _ w3) as [[[]|e] w4]; cbn; [|reflexivity].
  destruct (now env w4) as [t2 w5]. reflexivity.
Qed.


(** A resumption writes no attribute of the brain. *)
Lemma turn_resume_keeps_self (um ct : string) (s : Suspended) (m : Machine W) :
  self (snd (turn_resume env um ct s m)) = self m.
Proof.
  unfold turn_resume, suspend, processing_error. unfold_monad.
  destruct s as [t0 [context|e] | t0 [response|e] | t0 response [[]|e]]; cbn;
    try reflexivity.
  - destruct (ollama_client (self m)) as [oc|]; cbn; [|reflexivity].
    destruct (OllamaClient.generate_response oc um _ _ (world m)) as [r w]; reflexivity.
  - destruct (context_manager (self m)) as [cm|]; cbn; [|reflexivity].
    destruct (now env (world m)) as [t1 w]. cbn.
    destruct (ContextManager.update_context cm _ w) as [r w']; reflexivity.
  - destruct (now env (world m)) as [t2 w]; reflexivity.
Qed.

(** The id a turn reports is the counter as it stands at its last
    resumption. *)
Lemma turn_resume_success_id (um ct : string) (s : Suspended) (m : Machine W) (d : pydict) :
  fst (turn_resume env um ct s m) = Returned (inl d) ->
  dict_get d "success" = Some (VBool true) ->
  dict_get d "interaction_id" = Some (VInt (interaction_count (self m))).
Proof.
  unfold turn_resume, suspend, processing_error. unfold_monad.
  destruct s as [t0 [context|e] | t0 [response|e] | t0 response [[]|e]]; cbn;
    try (intros H Hok; inversion H; subst d; discriminate Hok).
  - destruct (ollama_client (self m)) as [oc|]; cbn;
      [|intros H Hok; inversion H; subst d; discriminate Hok].
    destruct (OllamaClient.generate_response oc um _ _ (world m)) as [r w]; cbn.
    discriminate.
  - destruct (context_manager (self m)) as [cm|]; cbn;
      [|intros H Hok; inversion H; subst d; discriminate Hok].
    destruct (now env (world m)) as [t1 w]. cbn.
    destruct (ContextManager.update_context cm _ w) as [r w']; cbn. discriminate.
  - destruct (now env (world m)) as [t2 w]; cbn.
    intros H _. inversion H; subst d. reflexivity.
Qed.

Lemma turn_finish_keeps_self (um ct : string) (s : Suspended) (m : Machine W) :
  self (snd (turn_finish env um ct s m)) = self m.
Proof.
  unfold turn_finish, bind, ret.
  pose proof (turn_resume_keeps_self um ct s m) as H1.
  destruct (turn_resume env um ct s m) as [[[d1|s1]|e1] m1]; cbn -[turn_resume] in *;
    [exact H1 | | exact H1].
  pose proof (turn_resume_keeps_self um ct s1 m1) as H2.
  destruct (turn_resume env um ct s1 m1) as [[[d2|s2]|e2] m2]; cbn -[turn_resume] in *;
    [congruence | | congruence].
  pose proof (turn_resume_keeps_self um ct s2 m2) as H3.
  destruct (turn_resume env um ct s2 m2) as [[[d3|s3]|e3] m3]; cbn -[turn_resume] in *; congruence.
Qed.

Lemma turn_finish_success_id (um ct : string) (s : Suspended) (m : Machine W) (d : pydict) :
  fst (turn_finish env um ct s m) = Returned d ->
  dict_get d "success" = Some (VBool true) ->
  dict_get d "interaction_id" = Some (VInt (interaction_count (self m))).
Proof.
  unfold turn_finish, bind, ret.
  pose proof (turn_resume_keeps_self um ct s m) as K1.
  pose proof (@turn_resume_success_id um ct s m) as I1.
  destruct (turn_resume env um ct s m) as [[[d1|s1]|e1] m1]; cbn -[turn_resume] in *;
    [intros H; inversion H; subst d1; apply I1; reflexivity | | discriminate].
  pose proof (turn_resume_keeps_self um ct s1 m1) as K2.
  pose proof (@turn_resume_success_id um ct s1 m1) as I2.
  destruct (turn_resume env um ct s1 m1) as [[[d2|s2]|e2] m2]; cbn -[turn_resume] in *;
    [intros H Hok; inversion H; subst d2; rewrite <- K1; apply I2; [reflexivity|exact Hok]
    | | discriminate].
  pose proof (turn_resume_keeps_self um ct s2 m2) as K3.
  pose proof (@turn_resume_success_id um ct s2 m2) as I3.
  destruct (turn_resume env um ct s2 m2) as [[[d3|s3]|e3] m3]; cbn -[turn_resume] in *;
    [intros H Hok; inversion H; subst d3; rewrite <- K1, <- K2; apply I3;
       [reflexivity|exact Hok]
    | intros H Hok; inversion H; subst d; discriminate Hok
    | discriminate].
Qed.

(** A turn that gets to its first await has added one to the counter. *)
Lemma turn_begin_increments (um ct : string) (m : Machine W) (s : Suspended) :
  fst (turn_begin env um ct m) = Returned (inr s) ->
  interaction_count (self (snd (turn_begin env um ct m))) = interaction_count (self m) + 1.
Proof.
  unfold turn_begin, suspend, processing_error. unfold_monad. cbn.
  destruct (negb (is_running (self m))); cbn; [discriminate|].
  destruct (now env (world m)) as [t0 w0]. cbn.
  destruct (context_manager (self m)) as [cm|]; cbn; [|discriminate].
  destruct (ContextManager.build_context cm ct um w0) as [r w1]. reflexivity.
Qed.

(** Two turns that overlap -- the second begins while the first is suspended
    at its first await -- and both complete report the same interaction id:
    each reads the counter again after its awaits, when both increments have
    been made. *)
Lemma overlapping_turns_report_the_same_id (m : Machine W) (um ct um' ct' : string)
    (s s' : Suspended) (d d' : pydict) :
  fst (turn_begin env um ct m) = Returned (inr s) ->
  fst (turn_begin env um' ct' (snd (turn_begin env um ct m))) = Returned (inr s') ->
  fst (turn_finish env um ct s (snd (turn_begin env um' ct' (snd (turn_begin env um ct m))))) =
    Returned d ->
  dict_get d "success" = Some (VBool true) ->
  fst (turn_finish env um' ct' s'
         (snd (turn_finish env um ct s
                 (snd (turn_begin env um' ct' (snd (turn_begin env um ct m))))))) = Returned d' ->
  dict_get d' "success" = Some (VBool true) ->
  dict_get d "interaction_id" = Some (VInt (interaction_count (self m) + 2)) /\
  dict_get d' "interaction_id" = Some (VInt (interaction_count (self m) + 2)).
Proof.
  intros Hs Hs' Hd Hok Hd' Hok'.
  pose proof (turn_begin_increments um ct m Hs) as H1.
  pose proof (turn_begin_increments um' ct' _ Hs') as H2.
  pose proof (turn_finish_success_id _ _ _ _ Hd Hok) as Hid.
  pose proof (turn_finish_success_id _ _ _ _ Hd' Hok') as Hid'.
  rewrite turn_finish_keeps_self in Hid'.
  rewrite Hid, Hid', H2, H1. split; do 2 f_equal; lia.
Qed.

(** *** Streaming against non-streaming *)

Lemma context_writes_app (l1 l2 : list Call) :
  context_writes (l1 ++ l2) = context_writes l1 ++ context_writes l2.
Proof.
  induction l1 as [|c l1 IH]; cbn; [reflexivity|].
  destruct c; cbn; rewrite IH; reflexivity.
Qed.

(** C5, as the code has it.  From the same running brain, with a context
    store that gives both runs the same context and accepts every write, and
    a generation client whose fragments concatenate to its non-streaming
    response, [process_user_input] and [stream_user_response] deliver the
    same text and each make one context-store write; the two records agree
    on [user_message], [assistant_response] and [context_type], and their
    [metadata] are not the same: the non-streaming one carries a
    [response_time], the streaming one does not. *)
Theorem streaming_agrees_with_non_streaming_except_metadata (m : Machine W)
    (um ct : string) (cm : ContextManager.t W) (oc : OllamaClient.t W)
    (context : pyval) (text : string) (fragments : list string) (wb wc wb' wc' : W) :
  is_running (self m) = true ->
  context_manager (self m) = Some cm ->
  ollama_client (self m) = Some oc ->
  let system_prompt := _get_system_prompt (self m) ct in
  let history := [("conversation_history", context)] in
  ContextManager.build_context cm ct um (snd (now env (world m))) = (Returned context, wb) ->
  OllamaClient.generate_response oc um history system_prompt wb = (Returned text, wc) ->
  ContextManager.build_context cm ct um (world m) = (Returned context, wb') ->
  OllamaClient.stream_response oc um history system_prompt wb' = ((fragments, None), wc') ->
  String.concat EmptyString fragments = text ->
  (forall record w, fst (ContextManager.update_context cm record w) = Returned tt) ->
  exists d m1 m2 r1 r2,
    process_user_input env um ct m = (Returned d, m1) /\
    dict_get d "message" = Some (VStr text) /\
    stream_user_response um ct m = (Returned fragments, m2) /\
    context_writes (calls m1) = context_writes (calls m) ++ [r1] /\
    context_writes (calls m2) = context_writes (calls m) ++ [r2] /\
    dict_get r1 "user_message" = Some (VStr um) /\
    dict_get r2 "user_message" = Some (VStr um) /\
    dict_get r1 "assistant_response" = Some (VStr text) /\
    dict_get r2 "assistant_response" = Some (VStr text) /\
    dict_get r1 "context_type" = Some (VStr ct) /\
    dict_get r2 "context_type" = Some (VStr ct) /\
    (exists seconds,
       dict_get r1 "metadata" =
         Some (VDict [ ("interaction_id", VInt (interaction_count (self m1)));
                       ("response_time", VFloat seconds) ])) /\
    (exists id, dict_get r2 "metadata" = Some (VDict [("interaction_id", VInt id)])) /\
    dict_get r1 "metadata" <> dict_get r2 "metadata".
Proof.
  intros Hrun Hcm Hoc system_prompt history Hb Hg Hb' Hs Hcat Hwrite.
  subst system_prompt history.
  unfold process_user_input, stream_user_response. unfold_monad. cbn.
  rewrite Hrun, Hcm, Hoc. cbn.
  destruct (now env (world m)) as [t0 wa] eqn:Hnow0. cbn in Hb |- *.
  rewrite Hb, Hb'. cbn. rewrite Hg, Hs. cbn.
  destruct (now env wc) as [t1 wd] eqn:Hnow1. cbn.
  repeat match goal with
         | |- context [ContextManager.update_context cm ?r ?w] =>
             let H := fresh "Hu" in
             pose proof (Hwrite r w) as H;
             destruct (ContextManager.update_context cm r w) as [[[]|?] ?];
             cbn in H; [|discriminate H]; cbn
         end.
  match goal with
  | |- context [now env ?x] => destruct (now env x) as [t2 we] eqn:Hnow2
  end. cbn.
  rewrite app_nil_r.
  do 5 eexists.
  split; [reflexivity|]. split; [rewrite <- Hcat; reflexivity|].
  split; [reflexivity|].
  cbn. rewrite !context_writes_app. cbn. rewrite !app_nil_r.
  split; [reflexivity|]. split; [reflexivity|].
  cbn. rewrite Hcat.
  repeat (split; [reflexivity|]).
  split; [eexists; reflexivity|]. split; [eexists; reflexivity|].
  discriminate.
Qed.

(** * Further properties of the methods *)

(** ** Which methods can raise *)

(** X1.  Every public method except [start], [get_health_status],
    [get_system_insights] and [update_system_state] returns, whatever its
    arguments, the state of the brain and the behaviour of the
    collaborators: an exception of a collaborator never reaches the caller. *)
Theorem guarded_methods_never_raise (op : Operation) (m : Machine W) :
  may_raise op = false ->
  exists r m', run env op m = (Returned r, m').
Proof.
  intros Hop.
  destruct op; try discriminate Hop; cbn; unfold_methods; run_body; eauto.
Qed.

(** ** Which attributes a method writes *)

Lemma assigns_nothing_frame (op : Operation) (m : Machine W) :
  assigns_nothing op = true ->
  self (snd (run env op m)) = self m.
Proof.
  intros Hop.
  destruct op; try discriminate Hop; cbn; unfold_methods; run_body; reflexivity.
Qed.

Lemma non_lifecycle_frame (op : Operation) (m : Machine W) :
  lifecycle op = false ->
  same_lifecycle_and_collaborators (self m) (self (snd (run env op m))).
Proof.
  intros Hop. unfold same_lifecycle_and_collaborators.
  destruct op; try discriminate Hop; cbn; unfold_methods; run_body;
    repeat split; congruence.
Qed.

(** X2.  The reads, the delegations, [validate_patterns], [update_system_state]
    and the three methods of the command pipeline leave every attribute of
    the brain as it was, whether they return or raise. *)
Theorem reads_delegations_and_commands_assign_nothing (op : Operation) (m : Machine W) :
  assigns_nothing op = true ->
  self (snd (run env op m)) = self m.
Proof.
  intros Hop. pose proof (assigns_nothing_frame op m Hop) as Hframe.
  destruct (run env op m) as [r m']. exact Hframe.
Qed.

(** X3.  Only [start] and [stop] change [is_running], [startup_time] or a
    collaborator: every other public method leaves all of them as they
    were. *)
Theorem only_lifecycle_methods_change_lifecycle (op : Operation) (m : Machine W) :
  lifecycle op = false ->
  same_lifecycle_and_collaborators (self m) (self (snd (run env op m))).
Proof.
  intros Hop. pose proof (non_lifecycle_frame op m Hop) as Hframe.
  destruct (run env op m) as [r m']. exact Hframe.
Qed.

(** ** What writes [startup_time] *)

Lemma snd_returning (A : Type) (wrap : A -> Result) (c : M W A) (m : Machine W) :
  snd (returning wrap c m) = snd (c m).
Proof.
  unfold returning, bind, ret. destruct (c m) as [[a|e] m']; reflexivity.
Qed.

(** [_initialize_specialized_agents] returns, and writes nothing but the
    four agents. *)
Lemma initialize_agents_frame (m : Machine W) :
  fst (_initialize_specialized_agents env m) = Returned tt /\
  is_running (self (snd (_initialize_specialized_agents env m))) = is_running (self m) /\
  startup_time (self (snd (_initialize_specialized_agents env m))) = startup_time (self m).
Proof.
  unfold _initialize_specialized_agents. run_body; repeat split; reflexivity.
Qed.

(** A [start] that returns has gone through the construction and start of
    the generation client, the construction of the context store and the
    health query, in this order, and has stamped [startup_time] with the
    reading of the clock at the state the health query left. *)
Lemma start_returned_stamp (m m1 : Machine W) :
  start env m = (Returned tt, m1) ->
  exists oc cm d summary w1 w2 w3 w4 w5,
    new_OllamaClient env (ai_config (self m)) (world m) = (Returned oc, w1) /\
    OllamaClient.start oc w1 = (Returned tt, w2) /\
    new_ContextManager env (context_config (self m)) w2 = (Returned cm, w3) /\
    OllamaClient.get_health_status oc w3 = (Returned d, w4) /\
    truthy (dict_get_default d "is_healthy" (VBool false)) = true /\
    ContextManager.get_context_summary cm w4 = (Returned summary, w5) /\
    startup_time (self m1) = Some (fst (now env w5)).
Proof.
  unfold start, get_health_status. unfold_monad.
  cbn -[_initialize_specialized_agents].
  destruct (new_OllamaClient env (ai_config (self m)) (world m)) as [[oc|e] w1] eqn:Hnew;
    cbn -[_initialize_specialized_agents]; [|discriminate].
  destruct (OllamaClient.start oc w1) as [[[]|e] w2] eqn:Hst;
    cbn -[_initialize_specialized_agents]; [|discriminate].
  destruct (new_ContextManager env (context_config (self m)) w2) as [[cm|e] w3] eqn:Hcm;
    cbn -[_initialize_specialized_agents]; [|discriminate].
  destruct (OllamaClient.get_health_status oc w3) as [[d|e] w4] eqn:Hh;
    cbn -[_initialize_specialized_agents]; [|discriminate].
  destruct (ContextManager.get_context_summary cm w4) as [[summary|e] w5] eqn:Hsum;
    cbn -[_initialize_specialized_agents]; [|discriminate].
  destruct (truthy (dict_get_default d "is_healthy" (VBool false))) eqn:Hok;
    cbn -[_initialize_specialized_agents]; [|discriminate].
  destruct (now env w5) as [t w6] eqn:Hnow. cbn -[_initialize_specialized_agents].
  match goal with
  | |- context [_initialize_specialized_agents env ?x] =>
      pose proof (initialize_agents_frame x) as (Hret & _ & Htime);
      destruct (_initialize_specialized_agents env x) as [[[]|e] m2]
  end; cbn in *; [|discriminate Hret].
  intros H. inversion H; subst m1.
  exists oc, cm, d, summary, w1, w2, w3, w4, w5.
  rewrite Hnow. cbn. repeat split; assumption.
Qed.

(** Every public method but [start] leaves [startup_time] as it is. *)
Lemma only_start_writes_startup_time (op : Operation) (m : Machine W) :
  starts op = false ->
  startup_time (self (snd (run env op m))) = startup_time (self m).
Proof.
  intros Hop. destruct (lifecycle op) eqn:Hl.
  - destruct op; try discriminate Hl; try discriminate Hop.
    cbn. rewrite snd_returning. apply stop_keeps_startup_time.
  - apply (non_lifecycle_frame op m Hl).
Qed.

Lemma non_start_sequence_keeps_startup_time (ops : list Operation) (m : Machine W) :
  forallb (fun op => negb (starts op)) ops = true ->
  startup_time (self (run_all env ops m)) = startup_time (self m).
Proof.
  revert m. induction ops as [|op ops IH]; intros m Hops; cbn in *; [reflexivity|].
  apply andb_true_iff in Hops. destruct Hops as [Hop Hops].
  apply negb_true_iff in Hop.
  rewrite (IH _ Hops). apply only_start_writes_startup_time. exact Hop.
Qed.

(** No public method takes a [startup_time] away. *)
Lemma startup_time_never_cleared (ops : list Operation) (m : Machine W) :
  startup_time (self m) <> None ->
  startup_time (self (run_all env ops m)) <> None.
Proof.
  revert m. induction ops as [|op ops IH]; intros m Hm; cbn; [exact Hm|].
  apply IH. destruct (starts op) eqn:Hop.
  - destruct op; try discriminate Hop. cbn. rewrite snd_returning.
    pose proof (start_outcome m) as Hout.
    destruct (start env m) as [[[]|e] m'']; cbn.
    + destruct Hout as [_ [w Hw]]. rewrite Hw. discriminate.
    + destruct Hout as [_ Ht]. rewrite Ht. exact Hm.
  - rewrite (only_start_writes_startup_time op m Hop). exact Hm.
Qed.

(** C7, as the code has it.  A [start] that returns has stamped
    [startup_time] once, with the reading of the clock taken right after
    [is_running] is set, that is at the state the health query left.  [stop]
    does not clear it and neither does any other method: after the start,
    [startup_time] stays what it is through any calls other than [start],
    [stop] among them, and through any calls at all it is never absent
    again. *)
Theorem startup_time_set_by_start_kept_by_stop (m m1 : Machine W) :
  start env m = (Returned tt, m1) ->
  (exists oc cm d summary w1 w2 w3 w4 w5,
     new_OllamaClient env (ai_config (self m)) (world m) = (Returned oc, w1) /\
     OllamaClient.start oc w1 = (Returned tt, w2) /\
     new_ContextManager env (context_config (self m)) w2 = (Returned cm, w3) /\
     OllamaClient.get_health_status oc w3 = (Returned d, w4) /\
     truthy (dict_get_default d "is_healthy" (VBool false)) = true /\
     ContextManager.get_context_summary cm w4 = (Returned summary, w5) /\
     startup_time (self m1) = Some (fst (now env w5))) /\
  (exists w, startup_time (self m1) = Some (fst (now env w))) /\
  startup_time (self (snd (stop m1))) = startup_time (self m1) /\
  startup_time (self (snd (stop m1))) <> None /\
  (forall ops,
     forallb (fun op => negb (starts op)) ops = true ->
     startup_time (self (run_all env ops m1)) = startup_time (self m1)) /\
  (forall ops, startup_time (self (run_all env ops m1)) <> None).
Proof.
  intros Hstart.
  destruct (start_returned_stamp m Hstart)
    as (oc & cm & d & summary & w1 & w2 & w3 & w4 & w5 & H1 & H2 & H3 & H4 & H5 & H6 & Hw).
  pose proof (stop_keeps_startup_time m1) as [Hstop _].
  assert (Hset : startup_time (self m1) <> None) by (rewrite Hw; discriminate).
  split; [exists oc, cm, d, summary, w1, w2, w3, w4, w5; repeat split; assumption|].
  split; [exists w5; exact Hw|].
  split; [exact Hstop|].
  split; [rewrite Hstop; exact Hset|].
  split.
  - intros ops Hops. apply non_start_sequence_keeps_startup_time. exact Hops.
  - intros ops. apply startup_time_never_cleared. exact Hset.
Qed.

(** ** Lifecycle *)

(** X4.  When closing the generation client raises, [stop] swallows the
    exception and returns, the assignment of [is_running] is skipped, and
    the brain is left exactly as it was: a running brain stays marked
    running. *)
Theorem stop_swallows_close_failure (m : Machine W) (oc : OllamaClient.t W) (e : string)
    (w : W) :
  ollama_client (self m) = Some oc ->
  OllamaClient.close oc (world m) = (Raised e, w) ->
  stop m = (Returned tt,
            {| self := self m; world := w; calls := calls m ++ [CallOllamaClose] |}).
Proof.
  intros Hoc Hclose. unfold stop. unfold_monad. cbn. rewrite Hoc. cbn.
  rewrite Hclose. reflexivity.
Qed.

(** What [stop] does when closing does not raise. *)
Lemma stop_when_close_returns (m : Machine W) :
  ollama_client (self m) = None \/
  (exists oc, ollama_client (self m) = Some oc /\
                fst (OllamaClient.close oc (world m)) = Returned tt) ->
  fst (stop m) = Returned tt /\ is_running (self (snd (stop m))) = false.
Proof.
  intros [Hnone | (oc & Hoc & Hclose)]; unfold stop; unfold_monad; cbn.
  - rewrite Hnone. cbn. split; reflexivity.
  - rewrite Hoc. cbn.
    destruct (OllamaClient.close oc (world m)) as [[[]|e] w']; cbn in *;
      [split; reflexivity | discriminate Hclose].
Qed.

(** X5.  After a [stop] that found no generation client, or whose [close]
    returned, every method that tests [is_running] answers with a failure
    dict and calls no collaborator, until the next [start]. *)
Theorem stopped_brain_refuses_guarded_operations (op : Operation) (m : Machine W) :
  ollama_client (self m) = None \/
  (exists oc, ollama_client (self m) = Some oc /\
                fst (OllamaClient.close oc (world m)) = Returned tt) ->
  checks_running op = true ->
  exists d,
    run env op (snd (stop m)) = (Returned (ResDict d), snd (stop m)) /\
    dict_get d "success" = Some (VBool false).
Proof.
  intros Hclose Hop.
  apply not_running_failure; [exact Hop|].
  apply (stop_when_close_returns m Hclose).
Qed.

(** X6.  [_initialize_specialized_agents] never raises and builds the agents in
    the order user interface, orchestrator, trainer, system controller, each
    constructor running from the state the one before left, and gives up at
    the first constructor that raises: the agents built before it are
    assigned, the ones after it are not attempted.  On a brain with no agent
    yet, an agent is therefore present afterwards only if all the ones
    before it are. *)
Theorem agents_are_initialized_in_order (m : Machine W) :
  user_interface (self m) = None ->
  agent_orchestrator (self m) = None ->
  embryo_trainer (self m) = None ->
  system_controller (self m) = None ->
  let built (b : CentralAIBrain W) (w : W) :=
    (Returned tt, {| self := b; world := w; calls := calls m |}) in
  _initialize_specialized_agents env m =
    match new_UserInterfaceAgent env (world m) with
    | (Raised _, w1) => built (self m) w1
    | (Returned ui, w1) =>
        let b1 := set_user_interface (Some ui) (self m) in
        match new_AgentOrchestrator env w1 with
        | (Raised _, w2) => built b1 w2
        | (Returned ao, w2) =>
            let b2 := set_agent_orchestrator (Some ao) b1 in
            match new_EmbryoTrainer env w2 with
            | (Raised _, w3) => built b2 w3
            | (Returned et, w3) =>
                let b3 := set_embryo_trainer (Some et) b2 in
                match new_SystemController env w3 with
                | (Raised _, w4) => built b3 w4
                | (Returned sc, w4) => built (set_system_controller (Some sc) b3) w4
                end
            end
        end
    end /\
  (system_controller (self (snd (_initialize_specialized_agents env m))) <> None ->
   embryo_trainer (self (snd (_initialize_specialized_agents env m))) <> None) /\
  (embryo_trainer (self (snd (_initialize_specialized_agents env m))) <> None ->
   agent_orchestrator (self (snd (_initialize_specialized_agents env m))) <> None) /\
  (agent_orchestrator (self (snd (_initialize_specialized_agents env m))) <> None ->
   user_interface (self (snd (_initialize_specialized_agents env m))) <> None).
Proof.
  intros Hui Hao Het Hsc built. subst built.
  unfold _initialize_specialized_agents. unfold_monad. cbn.
  repeat (case_step; cbn in * ); repeat split; congruence.
Qed.

(** X7.  A [start] that returns has left the brain running with a generation
    client and a context store in place, and has not touched
    [interaction_count]. *)
Theorem started_brain_has_core_collaborators (m m' : Machine W) :
  start env m = (Returned tt, m') ->
  is_running (self m') = true /\
  ollama_client (self m') <> None /\
  context_manager (self m') <> None /\
  interaction_count (self m') = interaction_count (self m).
Proof.
  unfold start, _initialize_specialized_agents, get_health_status.
  unfold_monad. cbn.
  repeat (case_step; cbn in * ); intros H; inversion H; subst; cbn;
    repeat split; congruence.
Qed.

(** X8.  The specialised agents are optional: once the generation client is
    built, started and healthy and the context store is built and can give
    its summary, [start] returns with the brain running whatever the
    constructors of the four agents do. *)
Theorem start_does_not_depend_on_agents (m : Machine W) (oc : OllamaClient.t W)
    (cm : ContextManager.t W) (d : pydict) (summary : pyval) (w1 w2 w3 w4 w5 : W) :
  new_OllamaClient env (ai_config (self m)) (world m) = (Returned oc, w1) ->
  OllamaClient.start oc w1 = (Returned tt, w2) ->
  new_ContextManager env (context_config (self m)) w2 = (Returned cm, w3) ->
  OllamaClient.get_health_status oc w3 = (Returned d, w4) ->
  truthy (dict_get_default d "is_healthy" (VBool false)) = true ->
  ContextManager.get_context_summary cm w4 = (Returned summary, w5) ->
  fst (start env m) = Returned tt /\
  is_running (self (snd (start env m))) = true /\
  startup_time (self (snd (start env m))) = Some (fst (now env w5)).
Proof.
  intros Hnew Hstart Hcm Hhealth Hok Hsum.
  unfold start, _initialize_specialized_agents, get_health_status.
  unfold_monad. cbn. rewrite Hnew. cbn. rewrite Hstart. cbn. rewrite Hcm. cbn.
  rewrite Hhealth. cbn. rewrite Hsum. cbn. rewrite Hok. cbn.
  destruct (now env w5) as [t w6]. cbn.
  repeat (case_step; cbn in * ); repeat split; reflexivity.
Qed.

(** ** Health *)

(** X9.  [get_health_status] is a read: when it returns, the brain and the call
    log are as before, [central_brain_running] and [interaction_count] are
    the attributes, a missing generation client is reported as
    [ollama_healthy] false with no [ollama_model] entry, and a present one
    through the [is_healthy] and [model_name] it gives, false and [unknown]
    standing in for a key it leaves out. *)
Theorem health_status_reports_the_attributes (m m' : Machine W) (d : pydict) :
  get_health_status env m = (Returned d, m') ->
  self m' = self m /\
  calls m' = calls m /\
  dict_get d "central_brain_running" = Some (VBool (is_running (self m))) /\
  dict_get d "interaction_count" = Some (VInt (interaction_count (self m))) /\
  match ollama_client (self m) with
  | None =>
      dict_get d "ollama_healthy" = Some (VBool false) /\ dict_get d "ollama_model" = None
  | Some oc =>
      exists h,
        fst (OllamaClient.get_health_status oc (world m)) = Returned h /\
        dict_get d "ollama_healthy" = Some (dict_get_default h "is_healthy" (VBool false)) /\
        dict_get d "ollama_model" = Some (dict_get_default h "model_name" (VStr "unknown"))
  end.
Proof.
  unfold get_health_status. unfold_monad. cbn.
  destruct (ollama_client (self m)) as [oc|]; cbn.
  - destruct (OllamaClient.get_health_status oc (world m)) as [[h|e] w]; cbn;
      [|discriminate].
    destruct (context_manager (self m)) as [cm|]; cbn.
    + destruct (ContextManager.get_context_summary cm w) as [[s|e] w']; cbn;
        intros H; inversion H; subst; cbn.
      repeat split; try reflexivity. exists h. repeat split; reflexivity.
    + intros H; inversion H; subst; cbn.
      repeat split; try reflexivity. exists h. repeat split; reflexivity.
  - destruct (context_manager (self m)) as [cm|]; cbn.
    + destruct (ContextManager.get_context_summary cm (world m)) as [[s|e] w']; cbn;
        intros H; inversion H; subst; cbn; repeat split; reflexivity.
    + intros H; inversion H; subst; cbn. repeat split; reflexivity.
Qed.

(** ** Conversational turns *)


(** X11.  When the generation client raises, the turn returns a failure dict with
    the text of the exception, the context store is not written, and the
    counter has moved all the same. *)
Theorem failed_generation_writes_no_record (um ct : string) (m : Machine W)
    (cm : ContextManager.t W) (oc : OllamaClient.t W) (context : pyval) (e : string)
    (w1 w2 : W) :
  is_running (self m) = true ->
  context_manager (self m) = Some cm ->
  ollama_client (self m) = Some oc ->
  ContextManager.build_context cm ct um (snd (now env (world m))) = (Returned context, w1) ->
  OllamaClient.generate_response oc um [("conversation_history", context)]
    (_get_system_prompt (self m) ct) w1 = (Raised e, w2) ->
  fst (process_user_input env um ct m) =
    Returned [ ("success", VBool false);
               ("error", VStr e);
               ("message",
                 VStr "I apologize, but I encountered an error processing your request. Please try again.") ] /\
  context_writes (calls (snd (process_user_input env um ct m))) = context_writes (calls m) /\
  interaction_count (self (snd (process_user_input env um ct m))) =
    interaction_count (self m) + 1.
Proof.
  intros Hrun Hcm Hoc Hb Hg.
  unfold process_user_input. unfold_monad. cbn. rewrite Hrun, Hcm, Hoc. cbn.
  destruct (now env (world m)) as [t0 w0]. cbn in *. rewrite Hb. cbn. rewrite Hg. cbn.
  repeat split; try reflexivity.
  rewrite !context_writes_app. cbn. rewrite !app_nil_r. reflexivity.
Qed.

(** ** Streaming *)

(** X12.  When the stream of the generation client breaks, the fragments already
    yielded stay yielded, exactly one apology follows them, and nothing is
    written to the context store. *)
Theorem interrupted_stream_keeps_fragments (um ct : string) (m : Machine W)
    (cm : ContextManager.t W) (oc : OllamaClient.t W) (context : pyval)
    (fragments : list string) (e : string) (w1 w2 : W) :
  is_running (self m) = true ->
  context_manager (self m) = Some cm ->
  ollama_client (self m) = Some oc ->
  ContextManager.build_context cm ct um (world m) = (Returned context, w1) ->
  OllamaClient.stream_response oc um [("conversation_history", context)]
    (_get_system_prompt (self m) ct) w1 = ((fragments, Some e), w2) ->
  fst (stream_user_response um ct m) = Returned (fragments ++ [stream_error_message]) /\
  context_writes (calls (snd (stream_user_response um ct m))) = context_writes (calls m).
Proof.
  intros Hrun Hcm Hoc Hb Hs.
  unfold stream_user_response. unfold_monad. cbn. rewrite Hrun, Hcm, Hoc. cbn.
  rewrite Hb. cbn. rewrite Hs. cbn. rewrite app_nil_r.
  split; [reflexivity|].
  rewrite !context_writes_app. cbn. rewrite !app_nil_r. reflexivity.
Qed.

(** X13.  When the stream ends normally but the context store refuses the write,
    the consumer has received every fragment, then one apology. *)
Theorem refused_write_ends_stream_with_apology (um ct : string) (m : Machine W)
    (cm : ContextManager.t W) (oc : OllamaClient.t W) (context : pyval)
    (fragments : list string) (w1 w2 : W) :
  is_running (self m) = true ->
  context_manager (self m) = Some cm ->
  ollama_client (self m) = Some oc ->
  ContextManager.build_context cm ct um (world m) = (Returned context, w1) ->
  OllamaClient.stream_response oc um [("conversation_history", context)]
    (_get_system_prompt (self m) ct) w1 = ((fragments, None), w2) ->
  (forall record, exists e w3, ContextManager.update_context cm record w2 = (Raised e, w3)) ->
  fst (stream_user_response um ct m) = Returned (fragments ++ [stream_error_message]).
Proof.
  intros Hrun Hcm Hoc Hb Hs Hu.
  unfold stream_user_response. unfold_monad. cbn. rewrite Hrun, Hcm, Hoc. cbn.
  rewrite Hb. cbn. rewrite Hs. cbn.
  match goal with
  | |- context [ContextManager.update_context cm ?r w2] =>
      destruct (Hu r) as (e & w3 & He); rewrite He
  end.
  cbn. rewrite app_nil_r. reflexivity.
Qed.

(** ** The command pipeline, in general *)

(** X14.  [execute_system_action] is public and does not read the disposition: on
    a running brain with a system controller it hands any action to the
    executor, once, and answers with the executor's dict, or with a failure
    dict carrying the text of the executor's exception. *)
Theorem execute_system_action_ignores_disposition (m : Machine W)
    (sc : SystemController.t W) (a : SystemAction) :
  is_running (self m) = true ->
  system_controller (self m) = Some sc ->
  calls (snd (execute_system_action a m)) = calls m ++ [CallExecuteSystemAction a] /\
  match SystemController.execute_system_action sc a (world m) with
  | (Returned r, _) => fst (execute_system_action a m) = Returned r
  | (Raised e, _) =>
      fst (execute_system_action a m) =
        Returned [ ("success", VBool false); ("error", VStr e) ]
  end.
Proof.
  intros Hrun Hsc. unfold execute_system_action. unfold_monad. cbn.
  rewrite Hrun, Hsc. cbn.
  destruct (SystemController.execute_system_action sc a (world m)) as [[r|e] w];
    split; reflexivity.
Qed.

(** X15.  Whatever the state of the brain and whatever the collaborators do,
    [process_user_command] logs nothing, or the translator call alone, or
    the translator call followed by one executor call; in the last case the
    action executed is the one the translator has just returned for this
    command and its disposition is [execute]. *)
Theorem command_pipeline_executes_only_what_was_approved (m : Machine W) (cmd : string)
    (ctx : option pydict) :
  calls (snd (process_user_command cmd ctx m)) = calls m \/
  calls (snd (process_user_command cmd ctx m)) =
    calls m ++ [CallTranslateUserCommand cmd ctx] \/
  exists sc a,
    system_controller (self m) = Some sc /\
    fst (SystemController.translate_user_command sc cmd ctx (world m)) = Returned a /\
    value (recommended_action a) = "execute" /\
    calls (snd (process_user_command cmd ctx m)) =
      calls m ++ [CallTranslateUserCommand cmd ctx; CallExecuteSystemAction a].
Proof.
  unfold process_user_command, translate_user_command, execute_system_action.
  unfold_monad. cbn.
  destruct (is_running (self m)) eqn:Hrun; cbn; [|left; reflexivity].
  destruct (system_controller (self m)) as [sc|] eqn:Hsc; cbn; [|left; reflexivity].
  destruct (SystemController.translate_user_command sc cmd ctx (world m))
    as [[a|e] w] eqn:Htr; cbn; [|right; left; reflexivity].
  destruct (String.eqb _ "request_confirmation" || String.eqb _ "request_clarification");
    cbn; [right; left; reflexivity|].
  destruct (String.eqb (value (recommended_action a)) "execute") eqn:Hv; cbn;
    [|right; left; reflexivity].
  rewrite Hrun, Hsc. cbn.
  right; right. exists sc, a. apply String.eqb_eq in Hv.
  split; [reflexivity|]. split; [rewrite Htr; reflexivity|]. split; [exact Hv|].
  destruct (SystemController.execute_system_action sc a w) as [[r|e] w']; cbn;
    rewrite <- app_assoc; reflexivity.
Qed.

(** X16.  When the translator raises, [process_user_command] returns the failure
    dict of [translate_user_command] as it is -- [success] false, the text
    of the exception, no action -- and the executor is not called. *)
Theorem translator_failure_is_passed_on (m : Machine W) (cmd : string)
    (ctx : option pydict) (sc : SystemController.t W) (e : string) (w : W) :
  is_running (self m) = true ->
  system_controller (self m) = Some sc ->
  SystemController.translate_user_command sc cmd ctx (world m) = (Raised e, w) ->
  process_user_command cmd ctx m =
    (Returned [ ("success", VBool false); ("error", VStr e); ("action", VNone) ],
     {| self := self m; world := w;
        calls := calls m ++ [CallTranslateUserCommand cmd ctx] |}).
Proof.
  intros Hrun Hsc Htr.
  unfold process_user_command, translate_user_command. unfold_monad. cbn.
  rewrite Hrun, Hsc. cbn. rewrite Htr. reflexivity.
Qed.


(** X18.  [request_confirmation] and [request_clarification] are handled alike:
    the result has [success] and [requires_user_input] true, the
    translator's feedback as message and the disposition itself, and the
    translator call is the only call made. *)
Theorem confirmation_is_returned_to_the_user (m : Machine W) (cmd : string)
    (ctx : option pydict) (sc : SystemController.t W) (a : SystemAction) (w' : W) :
  is_running (self m) = true ->
  system_controller (self m) = Some sc ->
  SystemController.translate_user_command sc cmd ctx (world m) = (Returned a, w') ->
  value (recommended_action a) = "request_confirmation" \/
  value (recommended_action a) = "request_clarification" ->
  process_user_command cmd ctx m =
    (Returned [ ("success", VBool true);
                ("requires_user_input", VBool true);
                ("message", VStr (user_feedback a));
                ("action_id", VStr (action_id a));
                ("recommended_action", VStr (value (recommended_action a))) ],
     {| self := self m; world := w';
        calls := calls m ++ [CallTranslateUserCommand cmd ctx] |}).
Proof.
  intros Hrun Hsc Htr Hv.
  rewrite (process_user_command_translated m cmd ctx Hrun Hsc Htr). cbv zeta.
  destruct Hv as [Hv|Hv]; rewrite Hv; reflexivity.
Qed.

(** ** Delegations *)

(** X19.  On a running brain a missing orchestrator or trainer is answered with a
    failure dict that names it, without any call; the text is not the one a
    brain that is not running gives. *)
Theorem delegations_name_the_missing_collaborator (m : Machine W) (task : string)
    (ctx : option pydict) (events : list pyval) (embryo_data : pydict) :
  is_running (self m) = true ->
  (agent_orchestrator (self m) = None ->
   orchestrate_complex_task task ctx m =
     (Returned [ ("success", VBool false);
                 ("error", VStr "Agent Orchestrator not available") ], m)) /\
  (embryo_trainer (self m) = None ->
   let unavailable :=
     (Returned [ ("success", VBool false); ("error", VStr "Embryo Trainer not available") ],
      m) in
   generate_training_labels events m = unavailable /\
   validate_embryo_training embryo_data m = unavailable /\
   assess_embryo_birth_readiness embryo_data m = unavailable) /\
  "Agent Orchestrator not available" <> not_running_error /\
  "Embryo Trainer not available" <> not_running_error.
Proof.
  intros Hrun. split; [|split; [|split]].
  - intros Hnone. unfold orchestrate_complex_task. unfold_monad. cbn.
    rewrite Hrun, Hnone. reflexivity.
  - intros Hnone unavailable. subst unavailable.
    unfold generate_training_labels, validate_embryo_training,
      assess_embryo_birth_readiness.
    unfold_monad. cbn. rewrite Hrun, Hnone. repeat split; reflexivity.
  - unfold not_running_error. discriminate.
  - unfold not_running_error. discriminate.
Qed.

(** X20.  A delegation hands back what the collaborator returns, unchanged and
    unchecked, after exactly one call; what the collaborator raises comes
    back as a failure dict with the text of the exception. *)
Theorem orchestration_result_is_passed_through (m : Machine W) (task : string)
    (ctx : option pydict) (ao : AgentOrchestrator.t W) :
  is_running (self m) = true ->
  agent_orchestrator (self m) = Some ao ->
  calls (snd (orchestrate_complex_task task ctx m)) =
    calls m ++ [CallCoordinateTask task ctx] /\
  match AgentOrchestrator.coordinate_task ao task ctx (world m) with
  | (Returned r, _) => fst (orchestrate_complex_task task ctx m) = Returned r
  | (Raised e, _) =>
      fst (orchestrate_complex_task task ctx m) =
        Returned [ ("success", VBool false); ("error", VStr e) ]
  end.
Proof.
  intros Hrun Hao. unfold orchestrate_complex_task. unfold_monad. cbn.
  rewrite Hrun, Hao. cbn.
  destruct (AgentOrchestrator.coordinate_task ao task ctx (world m)) as [[r|e] w];
    split; reflexivity.
Qed.

(** X21.  The three embryo operations delegate to the trainer method of their
    own: labels to [generate_training_labels], validation to
    [validate_embryo_training], birth readiness to [assess_birth_readiness],
    each called once with the argument received. *)
Theorem embryo_operations_reach_their_trainer_method (m : Machine W)
    (events : list pyval) (embryo_data : pydict) (et : EmbryoTrainer.t W) :
  is_running (self m) = true ->
  embryo_trainer (self m) = Some et ->
  let result_of (o : Outcome pydict * W) :=
    match fst o with
    | Returned r => Returned r
    | Raised e => Returned [ ("success", VBool false); ("error", VStr e) ]
    end in
  generate_training_labels events m =
    (result_of (EmbryoTrainer.generate_training_labels et events (world m)),
     {| self := self m;
        world := snd (EmbryoTrainer.generate_training_labels et events (world m));
        calls := calls m ++ [CallGenerateTrainingLabels events] |}) /\
  validate_embryo_training embryo_data m =
    (result_of (EmbryoTrainer.validate_embryo_training et embryo_data (world m)),
     {| self := self m;
        world := snd (EmbryoTrainer.validate_embryo_training et embryo_data (world m));
        calls := calls m ++ [CallValidateEmbryoTraining embryo_data] |}) /\
  assess_embryo_birth_readiness embryo_data m =
    (result_of (EmbryoTrainer.assess_birth_readiness et embryo_data (world m)),
     {| self := self m;
        world := snd (EmbryoTrainer.assess_birth_readiness et embryo_data (world m));
        calls := calls m ++ [CallAssessBirthReadiness embryo_data] |}).
Proof.
  intros Hrun Het result_of. subst result_of.
  unfold generate_training_labels, validate_embryo_training, assess_embryo_birth_readiness.
  unfold_monad. cbn. rewrite Hrun, Het. cbn.
  destruct (EmbryoTrainer.generate_training_labels et events (world m)) as [[?|?] ?];
  destruct (EmbryoTrainer.validate_embryo_training et embryo_data (world m)) as [[?|?] ?];
  destruct (EmbryoTrainer.assess_birth_readiness et embryo_data (world m)) as [[?|?] ?];
  repeat split; reflexivity.
Qed.

(** X22.  [update_system_state] tests neither [is_running] nor the outcome of the
    write: with a context store in place it writes one record holding the
    update, on a stopped brain too, and an exception of the store reaches
    the caller; with no context store it does nothing. *)
Theorem update_system_state_writes_unguarded (m : Machine W) (state_update : pydict) :
  match context_manager (self m) with
  | None => update_system_state env state_update m = (Returned tt, m)
  | Some cm =>
      exists record,
        dict_get record "system_state" = Some (VDict state_update) /\
        calls (snd (update_system_state env state_update m)) =
          calls m ++ [CallUpdateContext record] /\
        fst (update_system_state env state_update m) =
          fst (ContextManager.update_context cm record (snd (now env (world m))))
  end.
Proof.
  unfold update_system_state. unfold_monad. cbn.
  destruct (context_manager (self m)) as [cm|]; [|reflexivity].
  destruct (now env (world m)) as [t w]. cbn.
  eexists. split; [|split].
  2: { destruct (ContextManager.update_context cm _ w) as [[[]|e] w']; reflexivity. }
  - reflexivity.
  - destruct (ContextManager.update_context cm _ w) as [[[]|e] w']; reflexivity.
Qed.

(** ** Invariants of a brain driven through its public methods *)

(** [start] never removes the generation client or the context store, and
    has both in place when it returns. *)
Lemma start_keeps_core (m : Machine W) :
  (ollama_client (self m) <> None -> ollama_client (self (snd (start env m))) <> None) /\
  (context_manager (self m) <> None -> context_manager (self (snd (start env m))) <> None) /\
  (forall u, fst (start env m) = Returned u ->
     ollama_client (self (snd (start env m))) <> None /\
     context_manager (self (snd (start env m))) <> None).
Proof.
  unfold start, _initialize_specialized_agents, get_health_status.
  unfold_monad. cbn.
  repeat (case_step; cbn in * ); repeat split; intros; try congruence.
Qed.

(** [start] and [stop] leave [interaction_count] as it is. *)
Lemma lifecycle_keeps_counter (op : Operation) (m : Machine W) :
  lifecycle op = true ->
  interaction_count (self (snd (run env op m))) = interaction_count (self m).
Proof.
  intros Hop. destruct op; try discriminate Hop; cbn.
  - unfold start, _initialize_specialized_agents, get_health_status. run_body; reflexivity.
  - unfold stop. run_body; reflexivity.
Qed.

Lemma core_in_place_step (op : Operation) (m : Machine W) :
  core_in_place (self m) -> core_in_place (self (snd (run env op m))).
Proof.
  intros Hinv. destruct (lifecycle op) eqn:Hop.
  - destruct op; try discriminate Hop; cbn.
    + pose proof (start_outcome m) as Hout.
      pose proof (start_keeps_core m) as (Hoc & Hcm & Hret).
      unfold returning, bind, ret.
      destruct (start env m) as [[[]|e] m'] eqn:Hs; cbn in *.
      * intros _. destruct Hout as [_ [w Hw]].
        destruct (Hret tt eq_refl) as [H1 H2].
        repeat split; try assumption. rewrite Hw. discriminate.
      * destruct Hout as [Hr Ht]. intros Hrun. rewrite Hr in Hrun.
        destruct (Hinv Hrun) as (H1 & H2 & H3).
        repeat split; [auto | auto | rewrite Ht; exact H3].
    + unfold stop. run_body; unfold core_in_place in *; cbn in *; auto;
        intros H; discriminate H.
  - destruct (non_lifecycle_frame op m Hop) as (Hr & Ht & Hoc & Hcm & _).
    unfold core_in_place. rewrite Hr, Ht, Hoc, Hcm. exact Hinv.
Qed.

(** X23.  On a brain built by the constructor and then driven through any
    sequence of public methods, [is_running] is never true without a
    generation client, a context store and a start time in place: a running
    brain never meets a missing core collaborator. *)
Theorem running_brain_has_its_core (cfg : pydict) (w : W) (ops : list Operation) :
  core_in_place (self (run_all env ops {| self := init W cfg; world := w; calls := [] |})).
Proof.
  assert (Hall : forall m, core_in_place (self m) -> core_in_place (self (run_all env ops m))).
  { induction ops as [|op ops IH]; intros m Hm; cbn; [exact Hm|].
    apply IH. apply core_in_place_step. exact Hm. }
  apply Hall. intros Hrun. discriminate Hrun.
Qed.

(** X24.  [interaction_count] lives through stops and restarts: a sequence of
    calls made only of [start], [stop], reads, delegations and commands
    leaves it where it was. *)
Theorem counter_survives_restart (ops : list Operation) (m : Machine W) :
  forallb (fun op => lifecycle op || assigns_nothing op) ops = true ->
  interaction_count (self (run_all env ops m)) = interaction_count (self m).
Proof.
  revert m. induction ops as [|op ops IH]; intros m Hops; cbn in *; [reflexivity|].
  apply andb_true_iff in Hops. destruct Hops as [Hop Hops].
  rewrite (IH _ Hops).
  apply orb_true_iff in Hop. destruct Hop as [Hop|Hop].
  - apply lifecycle_keeps_counter. exact Hop.
  - f_equal. apply assigns_nothing_frame. exact Hop.
Qed.

(** X25.  [create_central_brain] gives a running brain with its generation
    client, context store and start time in place and its counter at zero,
    or raises and leaves a brain that is not running and has no start time. *)
Theorem created_brain_is_running_or_raised (cfg : pydict) (w : W) :
  match create_central_brain env cfg w with
  | (Returned _, m) =>
      is_running (self m) = true /\
      ollama_client (self m) <> None /\
      context_manager (self m) <> None /\
      startup_time (self m) <> None /\
      interaction_count (self m) = 0
  | (Raised _, m) =>
      is_running (self m) = false /\
      startup_time (self m) = None /\
      interaction_count (self m) = 0
  end.
Proof.
  unfold create_central_brain.
  set (m0 := {| self := init W cfg; world := w; calls := [] |}).
  pose proof (start_outcome m0) as Hout.
  pose proof (start_keeps_core m0) as (_ & _ & Hret).
  pose proof (lifecycle_keeps_counter OpStart m0 eq_refl) as Hcount.
  cbn in Hcount. unfold returning, bind, ret in Hcount.
  destruct (start env m0) as [[[]|e] m'] eqn:Hs; cbn in *.
  - destruct Hout as [Hr [w' Hw]]. destruct (Hret tt eq_refl) as [H1 H2].
    repeat split; try assumption. rewrite Hw. discriminate.
  - destruct Hout as [Hr Ht]. repeat split; assumption.
Qed.

End Facts.

(** * Concrete runs *)

(** A closed equation between runs is settled by evaluating both sides. *)
Ltac evaluate := vm_compute; reflexivity.

(** ** The command pipeline *)


(** The two scenarios of the command pipeline, run in full. *)
Example scenario_show_status :
  fst (process_user_command "show status" None (Demo.running "execute")) =
    Returned [ ("success", VBool true);
               ("message", VStr "done");
               ("action_id", VStr "act-1");
               ("results", VDict [("success", VBool true); ("message", VStr "done")]) ].
Proof. evaluate. Qed.

Example scenario_delete_all_files :
  process_user_command "delete all files" None (Demo.running "deny") =
    (Returned [ ("success", VBool false);
                ("message", VStr "feedback");
                ("action_id", VStr "act-1");
                ("recommended_action", VStr "deny") ],
     {| self := self (Demo.running "deny");
        world := 250000;
        calls := [CallOllamaStart; CallTranslateUserCommand "delete all files" None] |}).
Proof. evaluate. Qed.

(** C10 on the demo installation, with a disposition outside the enum. *)
Lemma unknown_disposition_handled_as_deny_witness :
  is_running (self (Demo.running "escalate")) = true /\
  fst (process_user_command "reboot" None (Demo.running "escalate")) =
    Returned [ ("success", VBool false);
               ("message", VStr "feedback");
               ("action_id", VStr "act-1");
               ("recommended_action", VStr "escalate") ] /\
  executor_calls (calls (snd (process_user_command "reboot" None (Demo.running "escalate")))) =
    executor_calls (calls (Demo.running "escalate")).
Proof.
  split; [evaluate|].
  destruct (@unknown_disposition_handled_as_deny Demo.W (Demo.running "escalate")
              "reboot" None (Demo.controller "escalate") (Demo.action "escalate")
              250000 ltac:(evaluate) ltac:(evaluate) ltac:(evaluate)) as [Hres Hcount].
  - vm_compute. discriminate.
  - vm_compute. discriminate.
  - vm_compute. discriminate.
  - split; [rewrite Hres; evaluate | exact Hcount].
Defined.

(** ** Calls on a brain that is not running *)

(** C2 fails on the code: on a brain that was never started,
    [validate_patterns] returns a dict with no [success] field and
    [update_system_state] returns [None]; neither is a failure result, and
    neither method is a lifecycle method or a health or status read. *)
Lemma validate_patterns_not_running_is_no_failure :
  is_running (self Demo.fresh) = false /\
  lifecycle_or_read (OpValidatePatterns [VStr "p"]) = false /\
  lifecycle_or_read (OpUpdateSystemState []) = false /\
  run (Demo.healthy "execute") (OpValidatePatterns [VStr "p"]) Demo.fresh =
    (Returned (ResDict [ ("validated_patterns", VList [VStr "p"]);
                         ("validation_score", VFloat (85 # 100));
                         ("recommendations", VList [VStr "Pattern validation placeholder"]) ]),
     Demo.fresh) /\
  ~ failure_result (ResDict [ ("validated_patterns", VList [VStr "p"]);
                              ("validation_score", VFloat (85 # 100));
                              ("recommendations",
                                VList [VStr "Pattern validation placeholder"]) ]) /\
  run (Demo.healthy "execute") (OpUpdateSystemState []) Demo.fresh =
    (Returned ResNone, Demo.fresh) /\
  ~ failure_result ResNone.
Proof.
  repeat split; try evaluate.
  - intros (d & Hd & Hs). inversion Hd; subst d. cbn in Hs. discriminate Hs.
  - intros (d & Hd & _). discriminate Hd.
Qed.

Lemma not_running_guarded_operations_fail_witness :
  is_running (self Demo.fresh) = false /\
  exists d,
    run (Demo.healthy "execute") (OpProcessUserCommand "show status" None) Demo.fresh =
      (Returned (ResDict d), Demo.fresh) /\
    dict_get d "success" = Some (VBool false).
Proof.
  split; [evaluate|].
  apply (proj1 (not_running_guarded_operations_fail (Demo.healthy "execute")
                  (OpProcessUserCommand "show status" None) Demo.fresh "hi" "chat" [] []
                  ltac:(evaluate) ltac:(evaluate))).
Defined.

(** ** Translator guard *)

(** C8 fails on the code: a brain that is not running and a running brain
    without a system controller get the same result from
    [translate_user_command], and its [error] is not the not-running
    message. *)
Lemma translate_not_running_same_as_controller_absent :
  is_running (self Demo.fresh) = false /\
  is_running (self (Demo.started Demo.without_agents)) = true /\
  system_controller (self (Demo.started Demo.without_agents)) = None /\
  fst (translate_user_command "show status" None Demo.fresh) =
    fst (translate_user_command "show status" None (Demo.started Demo.without_agents)) /\
  fst (translate_user_command "show status" None Demo.fresh) =
    Returned [ ("success", VBool false);
               ("error", VStr "SystemController not available");
               ("action", VNone) ] /\
  "SystemController not available" <> not_running_error.
Proof.
  repeat split; try evaluate. discriminate.
Qed.

Lemma translate_guard_same_failure_witness :
  translate_user_command "show status" None (Demo.started Demo.without_agents) =
    (Returned [ ("success", VBool false);
                ("error", VStr "SystemController not available");
                ("action", VNone) ],
     Demo.started Demo.without_agents).
Proof.
  apply (translate_guard_same_failure (Demo.started Demo.without_agents) "show status" None).
  right. evaluate.
Defined.

(** ** Conversational routing *)

Lemma chat_delegates_or_falls_back_witness :
  is_running (self (Demo.started Demo.without_agents)) = true /\
  user_interface (self (Demo.started Demo.without_agents)) = None /\
  chat_with_user_interface_agent Demo.without_agents "hi" None
      (Demo.started Demo.without_agents) =
    process_user_input Demo.without_agents "hi" "chat" (Demo.started Demo.without_agents).
Proof.
  split; [evaluate|]. split; [evaluate|].
  exact (proj1 (chat_delegates_or_falls_back Demo.without_agents
                  (Demo.started Demo.without_agents) "hi" None ltac:(evaluate))).
Defined.

(** ** Prompt selection *)

Lemma system_prompt_selected_by_context_type_witness :
  _get_system_prompt (init Demo.W []) "code_review" = base_prompt /\
  _get_system_prompt (init Demo.W []) "chat" =
    _get_system_prompt (self (Demo.running "execute")) "chat".
Proof.
  assert (H : forall s : string, String.eqb "code_review" s = false -> "code_review" <> s)
    by (intros s Hs; apply String.eqb_neq; exact Hs).
  destruct (@system_prompt_selected_by_context_type Demo.W (init Demo.W [])
              (self (Demo.running "execute")) "code_review"
              (H "chat" eq_refl) (H "system_control" eq_refl)
              (H "agent_orchestration" eq_refl) (H "embryo_training" eq_refl))
    as (_ & _ & _ & _ & Hbase & _ & Hsame).
  split; [exact Hbase | apply Hsame].
Defined.

(** ** Lifecycle *)

(** C4 fails on the code: after the failed start the brain is not running,
    but it is not as it was before the call.  The generation client, started
    and never closed, and the context store are assigned, and
    [get_health_status] shows both. *)
Lemma failed_start_leaves_client_and_store :
  fst (start Demo.unhealthy Demo.fresh) = Raised "Ollama client is not healthy" /\
  is_running (self (snd (start Demo.unhealthy Demo.fresh))) = false /\
  ollama_client (self Demo.fresh) = None /\
  ollama_client (self (snd (start Demo.unhealthy Demo.fresh))) <> None /\
  context_manager (self Demo.fresh) = None /\
  context_manager (self (snd (start Demo.unhealthy Demo.fresh))) <> None /\
  calls (snd (start Demo.unhealthy Demo.fresh)) = [CallOllamaStart] /\
  fst (get_health_status Demo.unhealthy Demo.fresh) =
    Returned [ ("central_brain_running", VBool false);
               ("startup_time", VNone);
               ("interaction_count", VInt 0);
               ("ollama_healthy", VBool false);
               ("context_manager_status", VNone) ] /\
  fst (get_health_status Demo.unhealthy (snd (start Demo.unhealthy Demo.fresh))) =
    Returned [ ("central_brain_running", VBool false);
               ("startup_time", VNone);
               ("interaction_count", VInt 0);
               ("ollama_healthy", VBool false);
               ("context_manager_status", VDict []);
               ("ollama_model", VStr "llama3") ].
Proof.
  repeat split; try evaluate; vm_compute; discriminate.
Qed.

Lemma start_fails_when_generation_client_unhealthy_witness :
  is_running (self Demo.fresh) = false /\
  fst (start Demo.unhealthy Demo.fresh) = Raised "Ollama client is not healthy" /\
  is_running (self (snd (start Demo.unhealthy Demo.fresh))) = false /\
  startup_time (self (snd (start Demo.unhealthy Demo.fresh))) = None.
Proof.
  split; [evaluate|].
  destruct (@start_fails_when_generation_client_unhealthy Demo.W Demo.unhealthy Demo.fresh
              (Demo.ollama false (Returned "pong") (["po"; "ng"], None))
              Demo.context_store
              [("is_healthy", VBool false); ("model_name", VStr "llama3")]
              0 0 0 0
              ltac:(evaluate) ltac:(evaluate) ltac:(evaluate) ltac:(evaluate)
              ltac:(evaluate) ltac:(evaluate))
    as (Hstart & Hrun & _ & Htime & _).
  rewrite Hstart. split; [evaluate|]. split; [exact Hrun | exact (Htime ltac:(evaluate))].
Defined.

(** The failed start, run in full: the exception, and the attributes left
    behind. *)
Example start_unhealthy_run :
  fst (start Demo.unhealthy Demo.fresh) = Raised "Ollama client is not healthy" /\
  is_running (self (snd (start Demo.unhealthy Demo.fresh))) = false /\
  startup_time (self (snd (start Demo.unhealthy Demo.fresh))) = None.
Proof. repeat split; evaluate. Qed.

(** C7 fails on the code: [stop] after a successful [start] returns, leaves
    the brain not running, and [startup_time] still holds the time of the
    start. *)
Lemma stop_does_not_clear_startup_time :
  fst (start (Demo.healthy "execute") Demo.fresh) = Returned tt /\
  fst (stop (Demo.running "execute")) = Returned tt /\
  is_running (self (snd (stop (Demo.running "execute")))) = false /\
  startup_time (self (snd (stop (Demo.running "execute")))) = Some 0 /\
  startup_time (self (snd (stop (Demo.running "execute")))) <> None.
Proof.
  repeat split; try evaluate. vm_compute. discriminate.
Qed.

(** C7 on the demo installation: the stamp is the reading at the start, and
    it is still there after a stop, a turn refused and a second stop. *)
Lemma startup_time_set_by_start_kept_by_stop_witness :
  start (Demo.healthy "execute") Demo.fresh = (Returned tt, Demo.running "execute") /\
  startup_time (self (snd (stop (Demo.running "execute")))) =
    startup_time (self (Demo.running "execute")) /\
  startup_time
    (self (run_all (Demo.healthy "execute")
             [OpStop; OpProcessUserInput "hi" "chat"; OpStop]
             (Demo.running "execute"))) =
    startup_time (self (Demo.running "execute")).
Proof.
  split; [evaluate|].
  destruct (@startup_time_set_by_start_kept_by_stop Demo.W (Demo.healthy "execute")
              Demo.fresh (Demo.running "execute") ltac:(evaluate))
    as (_ & _ & Hstop & _ & Hkept & _).
  split; [exact Hstop|].
  apply Hkept. evaluate.
Defined.

(** ** The interaction counter *)

(** C3 fails on the code: a turn of [process_user_input] in which the
    generation client raises does not complete, yet the counter has gone from
    0 to 1; a turn of [stream_user_response] completes, context write
    included, and the counter is still 0. *)
Lemma interaction_count_failed_turn_counts_streamed_turn_does_not :
  interaction_count (self (Demo.started Demo.failing_generation)) = 0 /\
  fst (process_user_input Demo.failing_generation "hi" "chat"
         (Demo.started Demo.failing_generation)) =
    Returned [ ("success", VBool false);
               ("error", VStr "connection refused");
               ("message",
                 VStr "I apologize, but I encountered an error processing your request. Please try again.") ] /\
  interaction_count
    (self (snd (process_user_input Demo.failing_generation "hi" "chat"
                  (Demo.started Demo.failing_generation)))) = 1 /\
  interaction_count (self (Demo.running "execute")) = 0 /\
  fst (stream_user_response "hi" "chat" (Demo.running "execute")) = Returned ["po"; "ng"] /\
  context_writes (calls (snd (stream_user_response "hi" "chat" (Demo.running "execute")))) =
    [ [ ("user_message", VStr "hi");
        ("assistant_response", VStr "pong");
        ("context_type", VStr "chat");
        ("metadata", VDict [("interaction_id", VInt 0)]) ] ] /\
  interaction_count
    (self (snd (stream_user_response "hi" "chat" (Demo.running "execute")))) = 0.
Proof.
  repeat split; evaluate.
Qed.

Lemma interaction_count_per_non_streaming_turn_witness :
  is_running (self (Demo.running "execute")) = true /\
  interaction_count
    (self (snd (process_user_input (Demo.healthy "execute") "hi" "chat"
                  (Demo.running "execute")))) =
    interaction_count (self (Demo.running "execute")) + 1.
Proof.
  split; [evaluate|].
  exact (proj1 (interaction_count_per_non_streaming_turn (Demo.healthy "execute")
                  (Demo.running "execute") "hi" "chat" "again" "chat"
                  [OpStreamUserResponse "hi" "chat"; OpStop; OpStart] ltac:(evaluate))).
Defined.

(** Two turns with a stop and a restart in between report the ids 1 and 2. *)
Example two_turns_two_ids :
  dict_get_default
    (match fst (process_user_input (Demo.healthy "execute") "hi" "chat"
                  (Demo.running "execute")) with
     | Returned d => d
     | Raised _ => []
     end) "interaction_id" VNone = VInt 1 /\
  dict_get_default
    (match fst (process_user_input (Demo.healthy "execute") "again" "chat"
                  (run_all (Demo.healthy "execute") [OpStop; OpStart]
                     (snd (process_user_input (Demo.healthy "execute") "hi" "chat"
                             (Demo.running "execute"))))) with
     | Returned d => d
     | Raised _ => []
     end) "interaction_id" VNone = VInt 2.
Proof. split; evaluate. Qed.

(** Two turns that overlap: the second begins while the first is suspended
    at its first await; both complete and both report the id 2, in their
    results and in the records they write. *)
Example overlapping_turns_share_an_id :
  fst Faults.first_turn_begun = Returned (inr (AtBuildContext 250000 (Returned (VList [])))) /\
  fst Faults.second_turn_begun = Returned (inr (AtBuildContext 500000 (Returned (VList [])))) /\
  fst Faults.first_turn_finished =
    Returned [ ("success", VBool true);
               ("message", VStr "pong");
               ("context_type", VStr "chat");
               ("interaction_id", VInt 2);
               ("response_time", VFloat (750000 # 1000000)) ] /\
  fst Faults.second_turn_finished =
    Returned [ ("success", VBool true);
               ("message", VStr "pong");
               ("context_type", VStr "chat");
               ("interaction_id", VInt 2);
               ("response_time", VFloat (1000000 # 1000000)) ].
Proof. repeat split; evaluate. Qed.

(** ** Streaming against non-streaming *)

(** C5 fails on the code: from the same running brain and the same input the
    two paths deliver the same text, but the records they write to the
    context store differ in their [metadata]. *)
Lemma streaming_and_non_streaming_writes_differ :
  fst (process_user_input (Demo.healthy "execute") "hi" "chat" (Demo.running "execute")) =
    Returned [ ("success", VBool true);
               ("message", VStr "pong");
               ("context_type", VStr "chat");
               ("interaction_id", VInt 1);
               ("response_time", VFloat (500000 # 1000000)) ] /\
  fst (stream_user_response "hi" "chat" (Demo.running "execute")) = Returned ["po"; "ng"] /\
  String.concat EmptyString ["po"; "ng"] = "pong" /\
  context_writes
    (calls (snd (process_user_input (Demo.healthy "execute") "hi" "chat"
                   (Demo.running "execute")))) =
    [ [ ("user_message", VStr "hi");
        ("assistant_response", VStr "pong");
        ("context_type", VStr "chat");
        ("metadata", VDict [ ("interaction_id", VInt 1);
                             ("response_time", VFloat (250000 # 1000000)) ]) ] ] /\
  context_writes (calls (snd (stream_user_response "hi" "chat" (Demo.running "execute")))) =
    [ [ ("user_message", VStr "hi");
        ("assistant_response", VStr "pong");
        ("context_type", VStr "chat");
        ("metadata", VDict [("interaction_id", VInt 0)]) ] ] /\
  context_writes
    (calls (snd (process_user_input (Demo.healthy "execute") "hi" "chat"
                   (Demo.running "execute")))) <>
  context_writes (calls (snd (stream_user_response "hi" "chat" (Demo.running "execute")))).
Proof.
  repeat split; try evaluate. vm_compute. discriminate.
Qed.

Lemma streaming_agrees_with_non_streaming_except_metadata_witness :
  exists d m1 m2 r1 r2,
    process_user_input (Demo.healthy "execute") "hi" "chat" (Demo.running "execute") =
      (Returned d, m1) /\
    dict_get d "message" = Some (VStr "pong") /\
    stream_user_response "hi" "chat" (Demo.running "execute") = (Returned ["po"; "ng"], m2) /\
    context_writes (calls m1) = context_writes (calls (Demo.running "execute")) ++ [r1] /\
    context_writes (calls m2) = context_writes (calls (Demo.running "execute")) ++ [r2] /\
    dict_get r1 "assistant_response" = dict_get r2 "assistant_response" /\
    dict_get r1 "metadata" <> dict_get r2 "metadata".
Proof.
  destruct (@streaming_agrees_with_non_streaming_except_metadata Demo.W
              (Demo.healthy "execute") (Demo.running "execute") "hi" "chat"
              Demo.context_store
              (Demo.ollama true (Returned "pong") (["po"; "ng"], None))
              (VList []) "pong" ["po"; "ng"] 500000 500000 250000 250000
              ltac:(evaluate) ltac:(evaluate) ltac:(evaluate) ltac:(evaluate)
              ltac:(evaluate) ltac:(evaluate) ltac:(evaluate) ltac:(evaluate)
              (fun _ _ => eq_refl))
    as (d & m1 & m2 & r1 & r2 & H1 & H2 & H3 & H4 & H5 & _ & _ & H6 & H7 & _ & _ & _ & _ & H8).
  exists d, m1, m2, r1, r2.
  repeat split; try assumption. congruence.
Defined.

(** ** Further runs *)

Lemma guarded_methods_never_raise_witness :
  exists r m',
    run (Demo.healthy "execute") (OpProcessUserInput "hi" "chat") Faults.client_breaks =
      (Returned r, m').
Proof.
  apply (@guarded_methods_never_raise Demo.W (Demo.healthy "execute")
           (OpProcessUserInput "hi" "chat") Faults.client_breaks).
  evaluate.
Defined.

Lemma reads_delegations_and_commands_assign_nothing_witness :
  self (snd (run (Demo.healthy "execute") (OpProcessUserCommand "show status" None)
               (Demo.running "execute"))) =
    self (Demo.running "execute").
Proof.
  apply (@reads_delegations_and_commands_assign_nothing Demo.W (Demo.healthy "execute")
           (OpProcessUserCommand "show status" None) (Demo.running "execute")).
  evaluate.
Defined.

Lemma only_lifecycle_methods_change_lifecycle_witness :
  same_lifecycle_and_collaborators (self (Demo.running "execute"))
    (self (snd (run (Demo.healthy "execute") (OpProcessUserInput "hi" "chat")
                  (Demo.running "execute")))).
Proof.
  apply (@only_lifecycle_methods_change_lifecycle Demo.W (Demo.healthy "execute")
           (OpProcessUserInput "hi" "chat") (Demo.running "execute")).
  evaluate.
Defined.

(** A generation client that cannot be closed: the brain is still marked
    running after [stop]. *)
Lemma stop_swallows_close_failure_witness :
  fst (stop Faults.client_breaks) = Returned tt /\
  is_running (self (snd (stop Faults.client_breaks))) = true.
Proof.
  rewrite (@stop_swallows_close_failure Demo.W Faults.client_breaks Faults.ollama_breaks
             "socket already closed" 250000 ltac:(evaluate) ltac:(evaluate)).
  split; evaluate.
Defined.

Lemma stopped_brain_refuses_guarded_operations_witness :
  exists d,
    run (Demo.healthy "execute") (OpProcessUserInput "hi" "chat")
        (snd (stop (Demo.running "execute"))) =
      (Returned (ResDict d), snd (stop (Demo.running "execute"))) /\
    dict_get d "success" = Some (VBool false).
Proof.
  apply (@stopped_brain_refuses_guarded_operations Demo.W (Demo.healthy "execute")
           (OpProcessUserInput "hi" "chat") (Demo.running "execute")).
  - right. exists Faults.ollama_ok. split; evaluate.
  - evaluate.
Defined.

(** The trainer cannot be built: the user-interface agent and the
    orchestrator are assigned, the trainer and the system controller are
    not. *)
Lemma agents_are_initialized_in_order_witness :
  _initialize_specialized_agents Faults.trainer_cannot_be_built Demo.fresh =
    (Returned tt,
     {| self := set_agent_orchestrator (Some Demo.orchestrator)
                  (set_user_interface (Some Demo.ui_agent) (self Demo.fresh));
        world := 0;
        calls := [] |}) /\
  system_controller
    (self (snd (_initialize_specialized_agents Faults.trainer_cannot_be_built Demo.fresh))) =
    None.
Proof.
  destruct (@agents_are_initialized_in_order Demo.W Faults.trainer_cannot_be_built Demo.fresh
              ltac:(evaluate) ltac:(evaluate) ltac:(evaluate) ltac:(evaluate))
    as (Hbuilt & _).
  rewrite Hbuilt. split; evaluate.
Defined.

Lemma started_brain_has_core_collaborators_witness :
  is_running (self (Demo.started Demo.without_agents)) = true /\
  ollama_client (self (Demo.started Demo.without_agents)) <> None /\
  context_manager (self (Demo.started Demo.without_agents)) <> None /\
  interaction_count (self (Demo.started Demo.without_agents)) =
    interaction_count (self Demo.fresh).
Proof.
  apply (@started_brain_has_core_collaborators Demo.W Demo.without_agents Demo.fresh
           (Demo.started Demo.without_agents)).
  evaluate.
Defined.

(** No agent can be built, and [start] returns all the same. *)
Lemma start_does_not_depend_on_agents_witness :
  fst (start Demo.without_agents Demo.fresh) = Returned tt /\
  is_running (self (snd (start Demo.without_agents Demo.fresh))) = true /\
  user_interface (self (snd (start Demo.without_agents Demo.fresh))) = None.
Proof.
  destruct (@start_does_not_depend_on_agents Demo.W Demo.without_agents Demo.fresh
              Faults.ollama_ok Demo.context_store
              [("is_healthy", VBool true); ("model_name", VStr "llama3")] (VDict [])
              0 0 0 0 0
              ltac:(evaluate) ltac:(evaluate) ltac:(evaluate) ltac:(evaluate)
              ltac:(evaluate) ltac:(evaluate)) as (H1 & H2 & _).
  split; [exact H1|]. split; [exact H2|]. evaluate.
Defined.

Lemma health_status_reports_the_attributes_witness :
  exists d,
    fst (get_health_status (Demo.healthy "execute") Demo.fresh) = Returned d /\
    dict_get d "central_brain_running" = Some (VBool false) /\
    dict_get d "ollama_healthy" = Some (VBool false) /\
    dict_get d "ollama_model" = None.
Proof.
  exists [ ("central_brain_running", VBool false); ("startup_time", VNone);
           ("interaction_count", VInt 0); ("ollama_healthy", VBool false);
           ("context_manager_status", VNone) ].
  split; [evaluate|].
  destruct (@health_status_reports_the_attributes Demo.W (Demo.healthy "execute")
              Demo.fresh Demo.fresh
              [ ("central_brain_running", VBool false); ("startup_time", VNone);
                ("interaction_count", VInt 0); ("ollama_healthy", VBool false);
                ("context_manager_status", VNone) ]
              ltac:(evaluate)) as (_ & _ & Hr & _ & Hc).
  split; [exact Hr|]. exact Hc.
Defined.


Lemma failed_generation_writes_no_record_witness :
  fst (process_user_input (Demo.healthy "execute") "hi" "chat" Faults.client_breaks) =
    Returned [ ("success", VBool false);
               ("error", VStr "model not loaded");
               ("message",
                 VStr "I apologize, but I encountered an error processing your request. Please try again.") ] /\
  context_writes
    (calls (snd (process_user_input (Demo.healthy "execute") "hi" "chat"
                   Faults.client_breaks))) =
    context_writes (calls Faults.client_breaks).
Proof.
  destruct (@failed_generation_writes_no_record Demo.W (Demo.healthy "execute") "hi" "chat"
              Faults.client_breaks Demo.context_store Faults.ollama_breaks (VList [])
              "model not loaded" 500000 500000
              ltac:(evaluate) ltac:(evaluate) ltac:(evaluate) ltac:(evaluate)
              ltac:(evaluate)) as (H1 & H2 & _).
  split; [exact H1 | exact H2].
Defined.

Lemma interrupted_stream_keeps_fragments_witness :
  fst (stream_user_response "hi" "chat" Faults.client_breaks) =
    Returned ["po"; "I apologize, but I encountered an error. Please try again."].
Proof.
  apply (@interrupted_stream_keeps_fragments Demo.W "hi" "chat" Faults.client_breaks
           Demo.context_store Faults.ollama_breaks (VList []) ["po"] "connection reset"
           250000 250000
           ltac:(evaluate) ltac:(evaluate) ltac:(evaluate) ltac:(evaluate) ltac:(evaluate)).
Defined.

Lemma refused_write_ends_stream_with_apology_witness :
  fst (stream_user_response "hi" "chat" Faults.store_refuses) =
    Returned ["po"; "ng"; "I apologize, but I encountered an error. Please try again."].
Proof.
  apply (@refused_write_ends_stream_with_apology Demo.W "hi" "chat" Faults.store_refuses
           Faults.store_refuses_writes Faults.ollama_ok (VList []) ["po"; "ng"]
           250000 250000
           ltac:(evaluate) ltac:(evaluate) ltac:(evaluate) ltac:(evaluate) ltac:(evaluate)).
  intros record. exists "disk full", 250000. reflexivity.
Defined.
(** A denied action handed straight to [execute_system_action] is executed. *)
Lemma execute_system_action_ignores_disposition_witness :
  value (recommended_action (Demo.action "deny")) = "deny" /\
  calls (snd (execute_system_action (Demo.action "deny") (Demo.running "deny"))) =
    calls (Demo.running "deny") ++ [CallExecuteSystemAction (Demo.action "deny")].
Proof.
  split; [evaluate|].
  apply (@execute_system_action_ignores_disposition Demo.W (Demo.running "deny")
           (Demo.controller "deny") (Demo.action "deny")
           ltac:(evaluate) ltac:(evaluate)).
Defined.

Lemma translator_failure_is_passed_on_witness :
  fst (process_user_command "show status" None Faults.translator_raises) =
    Returned [ ("success", VBool false);
               ("error", VStr "no intent found");
               ("action", VNone) ].
Proof.
  rewrite (@translator_failure_is_passed_on Demo.W Faults.translator_raises "show status"
             None Faults.controller_cannot_translate "no intent found" 250000
             ltac:(evaluate) ltac:(evaluate) ltac:(evaluate)).
  reflexivity.
Defined.


Lemma confirmation_is_returned_to_the_user_witness :
  fst (process_user_command "format disk" None (Demo.running "request_confirmation")) =
    Returned [ ("success", VBool true);
               ("requires_user_input", VBool true);
               ("message", VStr "feedback");
               ("action_id", VStr "act-1");
               ("recommended_action", VStr "request_confirmation") ].
Proof.
  assert (Hv : value (recommended_action (Demo.action "request_confirmation")) =
                 "request_confirmation" \/
               value (recommended_action (Demo.action "request_confirmation")) =
                 "request_clarification") by (left; evaluate).
  rewrite (@confirmation_is_returned_to_the_user Demo.W
             (Demo.running "request_confirmation") "format disk" None
             (Demo.controller "request_confirmation") (Demo.action "request_confirmation")
             250000 ltac:(evaluate) ltac:(evaluate) ltac:(evaluate) Hv).
  reflexivity.
Defined.

Lemma delegations_name_the_missing_collaborator_witness :
  orchestrate_complex_task "plan the week" None (Demo.started Demo.without_agents) =
    (Returned [ ("success", VBool false);
                ("error", VStr "Agent Orchestrator not available") ],
     Demo.started Demo.without_agents).
Proof.
  apply (@delegations_name_the_missing_collaborator Demo.W (Demo.started Demo.without_agents)
           "plan the week" None [] [] ltac:(evaluate)).
  evaluate.
Defined.

Lemma orchestration_result_is_passed_through_witness :
  fst (orchestrate_complex_task "plan the week" None Faults.orchestrator_fails) =
    Returned [ ("success", VBool false); ("error", VStr "no agent free") ] /\
  fst (orchestrate_complex_task "plan the week" None (Demo.running "execute")) =
    Returned [ ("success", VBool true) ].
Proof.
  split.
  - apply (@orchestration_result_is_passed_through Demo.W Faults.orchestrator_fails
             "plan the week" None Faults.orchestrator_raises
             ltac:(evaluate) ltac:(evaluate)).
  - apply (@orchestration_result_is_passed_through Demo.W (Demo.running "execute")
             "plan the week" None Demo.orchestrator
             ltac:(evaluate) ltac:(evaluate)).
Defined.

Lemma embryo_operations_reach_their_trainer_method_witness :
  calls (snd (assess_embryo_birth_readiness [("id", VStr "e-7")] (Demo.running "execute"))) =
    calls (Demo.running "execute") ++ [CallAssessBirthReadiness [("id", VStr "e-7")]].
Proof.
  destruct (@embryo_operations_reach_their_trainer_method Demo.W (Demo.running "execute")
              [] [("id", VStr "e-7")] Demo.trainer ltac:(evaluate) ltac:(evaluate))
    as (_ & _ & H).
  rewrite H. reflexivity.
Defined.

(** A brain started, used, stopped, started again and asked to stream. *)
Lemma running_brain_has_its_core_witness :
  is_running
    (self (run_all (Demo.healthy "execute")
             [OpStart; OpProcessUserInput "hi" "chat"; OpStop; OpStart;
              OpStreamUserResponse "hi" "chat"]
             {| self := init Demo.W []; world := 0; calls := [] |})) = true /\
  context_manager
    (self (run_all (Demo.healthy "execute")
             [OpStart; OpProcessUserInput "hi" "chat"; OpStop; OpStart;
              OpStreamUserResponse "hi" "chat"]
             {| self := init Demo.W []; world := 0; calls := [] |})) <> None.
Proof.
  split; [evaluate|].
  apply (@running_brain_has_its_core Demo.W (Demo.healthy "execute") [] 0
           [OpStart; OpProcessUserInput "hi" "chat"; OpStop; OpStart;
            OpStreamUserResponse "hi" "chat"]).
  evaluate.
Defined.

(** One turn, then a stop, a restart and a health read: the counter is
    still 1. *)
Lemma counter_survives_restart_witness :
  interaction_count
    (self (snd (process_user_input (Demo.healthy "execute") "hi" "chat"
                  (Demo.running "execute")))) = 1 /\
  interaction_count
    (self (run_all (Demo.healthy "execute") [OpStop; OpStart; OpGetHealthStatus]
             (snd (process_user_input (Demo.healthy "execute") "hi" "chat"
                     (Demo.running "execute"))))) = 1.
Proof.
  split; [evaluate|].
  rewrite (@counter_survives_restart Demo.W (Demo.healthy "execute")
             [OpStop; OpStart; OpGetHealthStatus]
             (snd (process_user_input (Demo.healthy "execute") "hi" "chat"
                     (Demo.running "execute")))
             ltac:(evaluate)).
  evaluate.
Defined.

(** The edge cases, run in full. *)
Example update_system_state_raises_on_stopped_brain :
  is_running (self (snd (stop Faults.store_refuses))) = false /\
  fst (update_system_state (Demo.healthy "execute") [("mode", VStr "idle")]
         (snd (stop Faults.store_refuses))) = Raised "disk full".
Proof. split; evaluate. Qed.

Example created_brain_unhealthy :
  fst (create_central_brain Demo.unhealthy [] 0) = Raised "Ollama client is not healthy" /\
  is_running (self (snd (create_central_brain Demo.unhealthy [] 0))) = false.
Proof. split; evaluate. Qed.
Lemma command_pipeline_executes_only_what_was_approved_witness :
  calls (snd (process_user_command "show status" None (Demo.running "execute"))) =
    calls (Demo.running "execute") ++
    [CallTranslateUserCommand "show status" None;
     CallExecuteSystemAction (Demo.action "execute")].
Proof.
  destruct (@command_pipeline_executes_only_what_was_approved Demo.W
              (Demo.running "execute") "show status" None)
    as [H | [H | (sc & a & Hsc & Ha & _ & H)]].
  - vm_compute in H. discriminate H.
  - vm_compute in H. discriminate H.
  - rewrite H. vm_compute in Hsc. inversion Hsc; subst sc.
    vm_compute in Ha. inversion Ha; subst a. reflexivity.
Defined.

Lemma update_system_state_writes_unguarded_witness :
  update_system_state (Demo.healthy "execute") [("mode", VStr "idle")] Demo.fresh =
    (Returned tt, Demo.fresh).
Proof.
  exact (@update_system_state_writes_unguarded Demo.W (Demo.healthy "execute") Demo.fresh
           [("mode", VStr "idle")]).
Defined.

Lemma created_brain_is_running_or_raised_witness :
  is_running (self (snd (create_central_brain (Demo.healthy "execute") [] 0))) = true /\
  interaction_count (self (snd (create_central_brain (Demo.healthy "execute") [] 0))) = 0.
Proof.
  pose proof (@created_brain_is_running_or_raised Demo.W (Demo.healthy "execute") [] 0) as H.
  destruct (create_central_brain (Demo.healthy "execute") [] 0) as [[[]|e] m] eqn:Hc;
    vm_compute in Hc; inversion Hc; subst m.
  destruct H as (H1 & _ & _ & _ & H5). split; [exact H1 | exact H5].
Defined.
